(** * docker-exporter: the collection pipeline, embedded and verified

    The development follows the two Go packages of the exporter:

    - package [docker]  (the runtime client: [ListContainers],
      [InspectContainer], [GetContainerStats], [GetEngineInfo],
      [calculateCPUPercent]);
    - package [collector] ([NewCollector], [Collect],
      [collectContainerMetrics], [collectEngineMetrics], [stateToCode],
      [healthToCode]).

    Everything outside the process (the Docker daemon behind the SDK, the
    wall clock, the order in which goroutines post on a channel, Go's
    [time.Parse]) is gathered in one record, [World]; the Go code is then a
    function of the world.  Numbers are kept as the code has them: [uint64]
    and [int] are [Z] with the wrap-around written out where the code
    subtracts or adds, [float64] is the primitive binary64 float. *)

From Stdlib Require Import ZArith PrimFloat SpecFloat FloatOps.
From stdpp Require Import gmap strings list fin_maps.

Set Default Proof Using "Type".

(** ** Go primitives *)

(** [float64(n)] for an integer [n]: the nearest binary64, ties to even. *)
Definition float64_of_Z (z : Z) : float :=
  SF2Prim (binary_normalize prec emax z 0 false).

(** Arithmetic on [uint64] wraps modulo 2^64. *)
Definition wrap64 (z : Z) : Z := (z mod 2 ^ 64)%Z.

(** A call either returns or panics (an out-of-range slice expression, a
    [Must...] constructor given bad arguments). *)
Inductive Outcome (A : Type) : Type :=
| Returned (a : A)
| Panicked.
Arguments Returned {A} a.
Arguments Panicked {A}.

(** The [error] values of the runtime boundary; the code only ever tests
    them against [nil]. *)
Inductive error : Type :=
| TransportError
| Timeout
| StatsUnavailable
| ParseError.

(** A Go pair [(value, err)] with [err != nil] meaning failure. *)
Inductive Result (A : Type) : Type :=
| Ok (a : A)
| Err (e : error).
Arguments Ok {A} a.
Arguments Err {A} e.

(** The slice expression [s[:n]] on a string: the first [n] bytes, and a
    run-time panic when [s] is shorter. *)
Definition slice_to (s : string) (n : nat) : Outcome string :=
  if decide (n ≤ String.length s) then Returned (String.substring 0 n s) else Panicked.

(** [strings.TrimPrefix]. *)
Definition strings_TrimPrefix (s pre : string) : string :=
  if String.prefix pre s
  then String.substring (String.length pre) (String.length s - String.length pre) s
  else s.

(** ** Package [time]

    An instant is its number of nanoseconds since the zero [Time]
    (January 1, year 1, 00:00:00 UTC); a [Duration] is an [int64] count of
    nanoseconds. *)
Module time.

Definition Time := Z.
Definition Duration := Z.

Definition Second : Duration := 1000000000%Z.
Definition minDuration : Duration := (- 2 ^ 63)%Z.
Definition maxDuration : Duration := (2 ^ 63 - 1)%Z.

(** The zero value of [Time]. *)
Definition zero : Time := 0%Z.

Definition IsZero (t : Time) : bool := (t =? 0)%Z.

(** Seconds between the zero [Time] and January 1, 1970. *)
Definition unixToInternal : Z := 62135596800%Z.

(** [t.Unix()]: whole seconds since 1970, rounded down. *)
Definition Unix (t : Time) : Z := (t / Second - unixToInternal)%Z.

(** [t.Sub(u)]: the difference, saturated to the range of [Duration]. *)
Definition Sub (t u : Time) : Duration :=
  let d := (t - u)%Z in
  if (d <? minDuration)%Z then minDuration
  else if (maxDuration <? d)%Z then maxDuration
  else d.

(** [d.Seconds()]: Go divides the integer part and the remainder
    separately, truncating toward zero. *)
Definition Seconds (d : Duration) : float :=
  let sec := Z.quot d Second in
  let nsec := Z.rem d Second in
  (float64_of_Z sec + float64_of_Z nsec / 1000000000)%float.

End time.

(** ** The Docker SDK types the client reads

    Only the fields the exporter touches are kept. *)

(** [container.Summary], an entry of the container list. *)
Module Summary.
Record t : Type := mk { ID : string }.
End Summary.

(** [inspect.State] of [container.InspectResponse]; [Health] is a pointer,
    [None] when nil. *)
Module ContainerState.
Record t : Type := mk {
  Status : string;
  Running : bool;
  OOMKilled : bool;
  ExitCode : Z;
  StartedAt : string;
  FinishedAt : string;
  Health : option string
}.
End ContainerState.

(** [container.InspectResponse]; [Image] is [inspect.Config.Image]. *)
Module InspectResponse.
Record t : Type := mk {
  ID : string;
  Name : string;
  Created : string;
  Image : string;
  State : ContainerState.t;
  RestartCount : Z
}.
End InspectResponse.

(** [container.CPUStats], with [CPUUsage.TotalUsage] and
    [CPUUsage.PercpuUsage] flattened. *)
Module CPUStats.
Record t : Type := mk {
  TotalUsage : Z;
  PercpuUsage : list Z;
  SystemUsage : Z;
  OnlineCPUs : Z
}.
End CPUStats.

Module NetworkStats.
Record t : Type := mk { RxBytes : Z; TxBytes : Z }.
End NetworkStats.

(** [container.BlkioStatEntry]. *)
Module BlkioStatEntry.
Record t : Type := mk { Op : string; Value : Z }.
End BlkioStatEntry.

(** [container.StatsResponse]. *)
Module StatsResponse.
Record t : Type := mk {
  CPUStats : CPUStats.t;
  PreCPUStats : CPUStats.t;
  MemoryUsage : Z;                              (* MemoryStats.Usage *)
  MemoryLimit : Z;                              (* MemoryStats.Limit *)
  Networks : gmap string NetworkStats.t;
  IoServiceBytesRecursive : list BlkioStatEntry.t;  (* BlkioStats... *)
  PidsCurrent : Z                               (* PidsStats.Current *)
}.
End StatsResponse.

(** [system.Info]. *)
Module SystemInfo.
Record t : Type := mk {
  ServerVersion : string;
  OperatingSystem : string;
  Architecture : string;
  KernelVersion : string;
  ContainersRunning : Z;
  ContainersPaused : Z;
  ContainersStopped : Z;
  Images : Z;
  NCPU : Z;
  MemTotal : Z
}.
End SystemInfo.

(** ** Package [docker]: the structs of the client *)

Module ContainerInfo.
Record t : Type := mk {
  ID : string;
  Name : string;
  Image : string;
  State : string;
  Health : string;
  Created : time.Time;
  Started : time.Time;
  Finished : time.Time;
  RestartCount : Z;
  ExitCode : Z;
  OOMKilled : bool;
  Running : bool
}.
End ContainerInfo.

Module ContainerStats.
Record t : Type := mk {
  ID : string;
  Name : string;
  CPUPercent : float;
  CPUUsageTotal : Z;
  CPUSystem : Z;
  MemoryUsage : Z;
  MemoryLimit : Z;
  MemoryPercent : float;
  NetworkRxBytes : Z;
  NetworkTxBytes : Z;
  Networks : gmap string NetworkStats.t;
  BlockRead : Z;
  BlockWrite : Z;
  PidsCount : Z
}.
End ContainerStats.

Module EngineInfo.
Record t : Type := mk {
  Version : string;
  OS : string;
  Arch : string;
  KernelVersion : string;
  ContainersRunning : Z;
  ContainersPaused : Z;
  ContainersStopped : Z;
  Images : Z;
  NCPU : Z;
  MemTotal : Z
}.
End EngineInfo.

(** What [GetContainerStats] can meet on its way to a decoded sample: the
    call fails, reading the body fails, or the JSON does not decode. *)
Inductive StatsReply : Type :=
| StatsCallFailed (e : error)
| StatsReadFailed (e : error)
| StatsDecodeFailed (e : error)
| StatsDecoded (stats : StatsResponse.t).

(** ** The world outside the process

    The daemon is taken to answer the same way to the same request within
    one scrape, so its answers are functions of the request.  A call that
    runs into the scrape's deadline shows up as an [Err] answer.
    [time_Now k] is the instant returned by the [k]-th reading of the clock
    (wall and monotonic clocks are taken to agree during one scrape).
    [arrival] is the order in which the samples posted by the goroutines
    come out of the channel. *)
Record World : Type := mkWorld {
  cli_ContainerList : Result (list Summary.t);
  cli_ContainerInspect : string → Result InspectResponse.t;
  cli_ContainerStats : string → StatsReply;
  cli_Info : Result SystemInfo.t;
  time_Parse : string → option time.Time;    (* layout RFC3339Nano *)
  time_Now : nat → time.Time;
  arrival : list ContainerStats.t → list ContainerStats.t;
  config_Version : string;
  config_GoVersion : string
}.

(** ** Package [docker]: the functions *)

(** [if v, err := time.Parse(...); err == nil { field = v }] on a field
    that holds the zero [Time]. *)
Definition parsed_or_zero (w : World) (s : string) : time.Time :=
  match time_Parse w s with
  | Some t => t
  | None => time.zero
  end.

Definition InspectContainer (w : World) (containerID : string)
  : Outcome (Result ContainerInfo.t) :=
  match cli_ContainerInspect w containerID with
  | Err e => Returned (Err e)
  | Ok inspect =>
      match slice_to (InspectResponse.ID inspect) 12 with
      | Panicked => Panicked
      | Returned short =>
          let st := InspectResponse.State inspect in
          Returned (Ok {|
            ContainerInfo.ID := short;
            ContainerInfo.Name :=
              strings_TrimPrefix (InspectResponse.Name inspect) "/";
            ContainerInfo.Image := InspectResponse.Image inspect;
            ContainerInfo.State := ContainerState.Status st;
            ContainerInfo.RestartCount := InspectResponse.RestartCount inspect;
            ContainerInfo.ExitCode := ContainerState.ExitCode st;
            ContainerInfo.OOMKilled := ContainerState.OOMKilled st;
            ContainerInfo.Running := ContainerState.Running st;
            ContainerInfo.Created :=
              parsed_or_zero w (InspectResponse.Created inspect);
            ContainerInfo.Started :=
              parsed_or_zero w (ContainerState.StartedAt st);
            ContainerInfo.Finished :=
              parsed_or_zero w (ContainerState.FinishedAt st);
            ContainerInfo.Health :=
              match ContainerState.Health st with
              | Some status => status
              | None => "none"
              end
          |})
      end
  end.

(** The loop of [ListContainers]: [result] grows by [append]; an inspect
    error skips the entry. *)
Fixpoint ListContainers_loop (w : World) (containers : list Summary.t)
    (result : list ContainerInfo.t) : Outcome (list ContainerInfo.t) :=
  match containers with
  | [] => Returned result
  | cont :: rest =>
      match InspectContainer w (Summary.ID cont) with
      | Panicked => Panicked
      | Returned (Err _) => ListContainers_loop w rest result
      | Returned (Ok info) => ListContainers_loop w rest (result ++ [info])
      end
  end.

Definition ListContainers (w : World) : Outcome (Result (list ContainerInfo.t)) :=
  match cli_ContainerList w with
  | Err e => Returned (Err e)
  | Ok containers =>
      match ListContainers_loop w containers [] with
      | Panicked => Panicked
      | Returned result => Returned (Ok result)
      end
  end.

(** [calculateCPUPercent]: both deltas are [uint64] subtractions, converted
    to [float64] afterwards. *)
Definition calculateCPUPercent (stats : StatsResponse.t) : float :=
  let cur := StatsResponse.CPUStats stats in
  let pre := StatsResponse.PreCPUStats stats in
  let cpuDelta :=
    float64_of_Z (wrap64 (CPUStats.TotalUsage cur - CPUStats.TotalUsage pre)) in
  let systemDelta :=
    float64_of_Z (wrap64 (CPUStats.SystemUsage cur - CPUStats.SystemUsage pre)) in
  if (0 <? systemDelta)%float && (0 <? cpuDelta)%float then
    let cpuCount := float64_of_Z (CPUStats.OnlineCPUs cur) in
    let cpuCount :=
      if (cpuCount =? 0)%float
      then float64_of_Z (Z.of_nat (length (CPUStats.PercpuUsage cur)))
      else cpuCount in
    let cpuCount := if (cpuCount =? 0)%float then 1%float else cpuCount in
    (cpuDelta / systemDelta * cpuCount * 100)%float
  else 0%float.

(** One turn of the loop over [stats.Networks]. *)
Definition add_network (acc : gmap string NetworkStats.t * Z * Z)
    (entry : string * NetworkStats.t) : gmap string NetworkStats.t * Z * Z :=
  let '(nets, rx, tx) := acc in
  let '(iface, netStats) := entry in
  (<[iface := {| NetworkStats.RxBytes := NetworkStats.RxBytes netStats;
                 NetworkStats.TxBytes := NetworkStats.TxBytes netStats |}]> nets,
   wrap64 (rx + NetworkStats.RxBytes netStats),
   wrap64 (tx + NetworkStats.TxBytes netStats)).

(** One turn of the loop over [IoServiceBytesRecursive]. *)
Definition add_blkio (acc : Z * Z) (bioEntry : BlkioStatEntry.t) : Z * Z :=
  let '(rd, wr) := acc in
  let op := BlkioStatEntry.Op bioEntry in
  if bool_decide (op = "read" ∨ op = "Read")
  then (wrap64 (rd + BlkioStatEntry.Value bioEntry), wr)
  else if bool_decide (op = "write" ∨ op = "Write")
  then (rd, wrap64 (wr + BlkioStatEntry.Value bioEntry))
  else (rd, wr).

Definition GetContainerStats (w : World) (containerID name : string)
  : Outcome (Result ContainerStats.t) :=
  match cli_ContainerStats w containerID with
  | StatsCallFailed e => Returned (Err e)
  | StatsReadFailed e => Returned (Err e)
  | StatsDecodeFailed e => Returned (Err e)
  | StatsDecoded stats =>
      match slice_to containerID 12 with
      | Panicked => Panicked
      | Returned short =>
          let memoryUsage := StatsResponse.MemoryUsage stats in
          let memoryLimit := StatsResponse.MemoryLimit stats in
          let '(nets, rx, tx) :=
            fold_left add_network
              (map_to_list (StatsResponse.Networks stats)) (∅, 0%Z, 0%Z) in
          let '(rd, wr) :=
            fold_left add_blkio
              (StatsResponse.IoServiceBytesRecursive stats) (0%Z, 0%Z) in
          Returned (Ok {|
            ContainerStats.ID := short;
            ContainerStats.Name := name;
            ContainerStats.Networks := nets;
            ContainerStats.CPUPercent := calculateCPUPercent stats;
            ContainerStats.CPUUsageTotal :=
              CPUStats.TotalUsage (StatsResponse.CPUStats stats);
            ContainerStats.CPUSystem :=
              CPUStats.SystemUsage (StatsResponse.CPUStats stats);
            ContainerStats.MemoryUsage := memoryUsage;
            ContainerStats.MemoryLimit := memoryLimit;
            ContainerStats.MemoryPercent :=
              if (0 <? memoryLimit)%Z
              then (float64_of_Z memoryUsage / float64_of_Z memoryLimit * 100)%float
              else 0%float;
            ContainerStats.NetworkRxBytes := rx;
            ContainerStats.NetworkTxBytes := tx;
            ContainerStats.BlockRead := rd;
            ContainerStats.BlockWrite := wr;
            ContainerStats.PidsCount := StatsResponse.PidsCurrent stats
          |})
      end
  end.

Definition GetEngineInfo (w : World) : Result EngineInfo.t :=
  match cli_Info w with
  | Err e => Err e
  | Ok info => Ok {|
      EngineInfo.Version := SystemInfo.ServerVersion info;
      EngineInfo.OS := SystemInfo.OperatingSystem info;
      EngineInfo.Arch := SystemInfo.Architecture info;
      EngineInfo.KernelVersion := SystemInfo.KernelVersion info;
      EngineInfo.ContainersRunning := SystemInfo.ContainersRunning info;
      EngineInfo.ContainersPaused := SystemInfo.ContainersPaused info;
      EngineInfo.ContainersStopped := SystemInfo.ContainersStopped info;
      EngineInfo.Images := SystemInfo.Images info;
      EngineInfo.NCPU := SystemInfo.NCPU info;
      EngineInfo.MemTotal := SystemInfo.MemTotal info
    |}
  end.

(** ** The Prometheus client types the collector builds *)

Module prometheus.

(** [*prometheus.Desc] as built by [NewDesc] with no constant labels. *)
Record Desc : Type := mkDesc {
  fqName : string;
  help : string;
  variableLabels : list string
}.

Definition NewDesc (fqName help : string) (variableLabels : list string) : Desc :=
  mkDesc fqName help variableLabels.

Inductive ValueType : Type := CounterValue | GaugeValue.

(** A constant metric: what is sent on the channel of [Collect]. *)
Record Metric : Type := mkMetric {
  desc : Desc;
  valueType : ValueType;
  value : float;
  labelValues : list string
}.

(** [MustNewConstMetric] panics when the number of label values differs
    from the number of label names of the descriptor.  (The library also
    rejects label values that are not valid UTF-8; the strings handed
    over by the runtime are taken to be valid.) *)
Definition MustNewConstMetric (d : Desc) (vt : ValueType) (v : float)
    (lvs : list string) : Outcome Metric :=
  if decide (length lvs = length (variableLabels d))
  then Returned (mkMetric d vt v lvs)
  else Panicked.

End prometheus.

Import prometheus.

(** ** Package [config] *)

Module Config.
Record t : Type := mk {
  Prefix : string;
  Timeout : time.Duration
}.
End Config.

(** The whole [Config] struct as [Parse] fills it; [Config.t] above is the
    part of it the collector reads. *)
Module ParsedConfig.
Record t : Type := mk {
  Host : string;
  Port : Z;
  Endpoint : string;
  Prefix : string;
  LogLevel : string;
  LogPath : string;
  DockerHost : string;
  OutputMode : string;
  Timeout : time.Duration
}.
End ParsedConfig.

(** What a call of [Parse] ends in: the process exits (after printing), or
    the call returns [(cfg, ok)]. *)
Inductive ParseOutcome : Type :=
| Exited (code : Z) (stdout : string)
| Parsed (cfg : ParsedConfig.t) (ok : bool).

Definition newline : string := String (Ascii.ascii_of_nat 10) EmptyString.

Section Parse.

(** [strings.ToLower], and the package variables set at build time. *)
Variable strings_ToLower : string → string.
Variables Version GitCommit BuildDate GoVersion : string.

(** [Parse], from the point where [pflag.Parse] has stored the value of
    each flag (the given one or its default) in [cfg] and [showVersion]. *)
Definition Parse (cfg : ParsedConfig.t) (showVersion : bool) : ParseOutcome :=
  if showVersion then
    Exited 0
      ("docker-exporter " +:+ Version +:+ newline
       +:+ "  Git Commit: " +:+ GitCommit +:+ newline
       +:+ "  Build Date: " +:+ BuildDate +:+ newline
       +:+ "  Go Version: " +:+ GoVersion +:+ newline)
  else
    let endpoint := strings_TrimPrefix (ParsedConfig.Endpoint cfg) "/" in
    let logLevel := strings_ToLower (ParsedConfig.LogLevel cfg) in
    let outputMode := strings_ToLower (ParsedConfig.OutputMode cfg) in
    let outputMode :=
      if bool_decide (outputMode ≠ "minimum" ∧ outputMode ≠ "all")
      then "minimum" else outputMode in
    Parsed {| ParsedConfig.Host := ParsedConfig.Host cfg;
              ParsedConfig.Port := ParsedConfig.Port cfg;
              ParsedConfig.Endpoint := endpoint;
              ParsedConfig.Prefix := ParsedConfig.Prefix cfg;
              ParsedConfig.LogLevel := logLevel;
              ParsedConfig.LogPath := ParsedConfig.LogPath cfg;
              ParsedConfig.DockerHost := ParsedConfig.DockerHost cfg;
              ParsedConfig.OutputMode := outputMode;
              ParsedConfig.Timeout := ParsedConfig.Timeout cfg |}
           true.

End Parse.

(** [(c *Config) MetricsPath]. *)
Definition MetricsPath (c : ParsedConfig.t) : string :=
  "/" +:+ ParsedConfig.Endpoint c.

(** ** Package [collector] *)

(** The [Collector] struct; [client] is the world behind the Docker client,
    the logger is left out (it does not reach the metrics). *)
Record Collector : Type := mkCollector {
  client : World;
  prefix : string;
  timeout : time.Duration;
  containerInfo : Desc;
  containerState : Desc;
  containerUptime : Desc;
  containerCreated : Desc;
  containerStarted : Desc;
  containerRestartCount : Desc;
  containerHealthStatus : Desc;
  containerExitCode : Desc;
  containerOOMKilled : Desc;
  containerCPUPercent : Desc;
  containerCPUUsageSeconds : Desc;
  containerMemoryUsage : Desc;
  containerMemoryLimit : Desc;
  containerMemoryPercent : Desc;
  containerNetworkRxBytes : Desc;
  containerNetworkTxBytes : Desc;
  containerBlkioReadBytes : Desc;
  containerBlkioWriteBytes : Desc;
  engineInfo : Desc;
  containersTotal : Desc;
  imagesTotal : Desc;
  scrapeDuration : Desc;
  buildInfo : Desc
}.

Definition NewCollector (client : World) (cfg : Config.t) : Collector :=
  let prefix := Config.Prefix cfg in
  {| client := client;
     prefix := prefix;
     timeout := Config.Timeout cfg;
     containerInfo := NewDesc (prefix +:+ "_container_info")
       "Container information" ["id"; "name"; "image"; "state"];
     containerState := NewDesc (prefix +:+ "_container_state")
       "Container state (1=running, 2=paused, 3=restarting, 4=exited, 5=dead, 6=created)"
       ["id"; "name"];
     containerUptime := NewDesc (prefix +:+ "_container_uptime_seconds")
       "Container uptime in seconds" ["id"; "name"];
     containerCreated := NewDesc (prefix +:+ "_container_created_seconds")
       "Container creation timestamp" ["id"; "name"];
     containerStarted := NewDesc (prefix +:+ "_container_started_seconds")
       "Container start timestamp" ["id"; "name"];
     containerRestartCount := NewDesc (prefix +:+ "_container_restart_count")
       "Container restart count" ["id"; "name"];
     containerHealthStatus := NewDesc (prefix +:+ "_container_health_status")
       "Container health status (1=healthy, 0=unhealthy, -1=none)" ["id"; "name"];
     containerExitCode := NewDesc (prefix +:+ "_container_exit_code")
       "Container exit code" ["id"; "name"];
     containerOOMKilled := NewDesc (prefix +:+ "_container_oom_killed")
       "Container OOM killed (1=true, 0=false)" ["id"; "name"];
     containerCPUPercent := NewDesc (prefix +:+ "_container_cpu_usage_percent")
       "Container CPU usage percentage" ["id"; "name"];
     containerCPUUsageSeconds := NewDesc (prefix +:+ "_container_cpu_usage_seconds_total")
       "Container total CPU usage in seconds" ["id"; "name"];
     containerMemoryUsage := NewDesc (prefix +:+ "_container_memory_usage_bytes")
       "Container memory usage in bytes" ["id"; "name"];
     containerMemoryLimit := NewDesc (prefix +:+ "_container_memory_limit_bytes")
       "Container memory limit in bytes" ["id"; "name"];
     containerMemoryPercent := NewDesc (prefix +:+ "_container_memory_usage_percent")
       "Container memory usage percentage" ["id"; "name"];
     containerNetworkRxBytes := NewDesc (prefix +:+ "_container_network_rx_bytes_total")
       "Container network bytes received" ["id"; "name"; "interface"];
     containerNetworkTxBytes := NewDesc (prefix +:+ "_container_network_tx_bytes_total")
       "Container network bytes transmitted" ["id"; "name"; "interface"];
     containerBlkioReadBytes := NewDesc (prefix +:+ "_container_blkio_read_bytes_total")
       "Container block I/O bytes read" ["id"; "name"];
     containerBlkioWriteBytes := NewDesc (prefix +:+ "_container_blkio_write_bytes_total")
       "Container block I/O bytes written" ["id"; "name"];
     engineInfo := NewDesc (prefix +:+ "_engine_info")
       "Docker engine information" ["version"; "os"; "arch"; "kernel"];
     containersTotal := NewDesc (prefix +:+ "_containers_total")
       "Total number of containers by state" ["state"];
     imagesTotal := NewDesc (prefix +:+ "_images_total")
       "Total number of images" [];
     scrapeDuration := NewDesc (prefix +:+ "_scrape_duration_seconds")
       "Duration of the scrape" [];
     buildInfo := NewDesc (prefix +:+ "_build_info")
       "Exporter build information" ["version"; "go_version"]
  |}.

Definition stateToCode (state : string) : Z :=
  if decide (state = "running") then 1
  else if decide (state = "paused") then 2
  else if decide (state = "restarting") then 3
  else if decide (state = "exited") then 4
  else if decide (state = "dead") then 5
  else if decide (state = "created") then 6
  else 0.

Definition healthToCode (health : string) : Z :=
  if decide (health = "healthy") then 1
  else if decide (health = "unhealthy") then 0
  else if decide (health = "starting") then 2
  else (-1).

(** [Describe]: the descriptors sent on the channel, in order. *)
Definition Describe (c : Collector) : list Desc :=
  [containerInfo c; containerState c; containerUptime c; containerCreated c;
   containerStarted c; containerRestartCount c; containerHealthStatus c;
   containerExitCode c; containerOOMKilled c; containerCPUPercent c;
   containerCPUUsageSeconds c; containerMemoryUsage c; containerMemoryLimit c;
   containerMemoryPercent c; containerNetworkRxBytes c;
   containerNetworkTxBytes c; containerBlkioReadBytes c;
   containerBlkioWriteBytes c; engineInfo c; containersTotal c;
   imagesTotal c; scrapeDuration c; buildInfo c].

(** *** The scrape as a computation

    A step of [Collect] may read the clock, send metrics on [ch], or
    panic.  [M A] takes the number of clock readings made so far and
    returns the value, the new number of readings and the metrics sent. *)
Definition M (A : Type) : Type := nat → Outcome (A * nat * list Metric).

Definition ret {A} (a : A) : M A := λ k, Returned (a, k, []).

Definition bind {A B} (m : M A) (f : A → M B) : M B := λ k,
  match m k with
  | Panicked => Panicked
  | Returned (a, k1, out1) =>
      match f a k1 with
      | Panicked => Panicked
      | Returned (b, k2, out2) => Returned (b, k2, out1 ++ out2)
      end
  end.

Notation "'let*' x ':=' m 'in' f" := (bind m (λ x, f))
  (at level 10, x name, m at level 100, f at level 200).

Definition panic {A} : M A := λ _, Panicked.

(** [ch <- m]. *)
Definition send (m : Metric) : M unit := λ k, Returned ((), k, [m]).

Definition lift {A} (o : Outcome A) : M A :=
  match o with
  | Returned a => ret a
  | Panicked => panic
  end.

(** [time.Now()]. *)
Definition Now (w : World) : M time.Time := λ k, Returned (time_Now w k, S k, []).

(** [time.Since(t)] is [time.Now().Sub(t)]. *)
Definition Since (w : World) (t : time.Time) : M time.Duration :=
  let* now := Now w in ret (time.Sub now t).

(** [ch <- prometheus.MustNewConstMetric(...)]. *)
Definition emit (d : Desc) (vt : ValueType) (v : float) (lvs : list string) : M unit :=
  let* m := lift (MustNewConstMetric d vt v lvs) in send m.

(** A [for ... range] loop over a slice, for its effects. *)
Fixpoint for_range {A} (l : list A) (body : A → M unit) : M unit :=
  match l with
  | [] => ret ()
  | x :: rest => let* _ := body x in for_range rest body
  end.

(** The goroutines of [collectContainerMetrics]: one fetch per running
    container, a failed fetch posts nothing.  The samples are listed in the
    order the goroutines were started; a panic in a goroutine takes the
    process down. *)
Fixpoint fetch_running (w : World) (containers : list ContainerInfo.t)
  : Outcome (list ContainerStats.t) :=
  match containers with
  | [] => Returned []
  | cont :: rest =>
      if ContainerInfo.Running cont then
        match GetContainerStats w (ContainerInfo.ID cont) (ContainerInfo.Name cont) with
        | Panicked => Panicked
        | Returned (Err _) => fetch_running w rest
        | Returned (Ok stats) =>
            match fetch_running w rest with
            | Panicked => Panicked
            | Returned posted => Returned (stats :: posted)
            end
        end
      else fetch_running w rest
  end.

(** [for stats := range statsChan { statsMap[stats.ID] = stats }]. *)
Definition collect_statsMap (received : list ContainerStats.t)
  : gmap string ContainerStats.t :=
  fold_left (λ statsMap stats, <[ContainerStats.ID stats := stats]> statsMap)
    received ∅.

(** The resource metrics of one container, given its sample.  Go ranges
    over [stats.Networks] in an unspecified order; the order of
    [map_to_list] stands for it. *)
Definition emitResources (c : Collector) (cont : ContainerInfo.t)
    (stats : ContainerStats.t) : M unit :=
  let id := ContainerInfo.ID cont in
  let name := ContainerInfo.Name cont in
  let* _ := emit (containerCPUPercent c) GaugeValue
              (ContainerStats.CPUPercent stats) [id; name] in
  let* _ := emit (containerCPUUsageSeconds c) CounterValue
              (float64_of_Z (ContainerStats.CPUUsageTotal stats) / 1000000000)%float
              [id; name] in
  let* _ := emit (containerMemoryUsage c) GaugeValue
              (float64_of_Z (ContainerStats.MemoryUsage stats)) [id; name] in
  let* _ := emit (containerMemoryLimit c) GaugeValue
              (float64_of_Z (ContainerStats.MemoryLimit stats)) [id; name] in
  let* _ := emit (containerMemoryPercent c) GaugeValue
              (ContainerStats.MemoryPercent stats) [id; name] in
  let* _ := for_range (map_to_list (ContainerStats.Networks stats))
              (λ '(iface, netStats),
                 let* _ := emit (containerNetworkRxBytes c) CounterValue
                             (float64_of_Z (NetworkStats.RxBytes netStats))
                             [id; name; iface] in
                 emit (containerNetworkTxBytes c) CounterValue
                   (float64_of_Z (NetworkStats.TxBytes netStats))
                   [id; name; iface]) in
  let* _ := emit (containerBlkioReadBytes c) CounterValue
              (float64_of_Z (ContainerStats.BlockRead stats)) [id; name] in
  emit (containerBlkioWriteBytes c) CounterValue
    (float64_of_Z (ContainerStats.BlockWrite stats)) [id; name].

(** The body of the loop "Emit metrics for each container". *)
Definition emitContainer (c : Collector)
    (statsMap : gmap string ContainerStats.t) (cont : ContainerInfo.t) : M unit :=
  let id := ContainerInfo.ID cont in
  let name := ContainerInfo.Name cont in
  let* _ := emit (containerInfo c) GaugeValue 1
              [id; name; ContainerInfo.Image cont; ContainerInfo.State cont] in
  let stateCode := stateToCode (ContainerInfo.State cont) in
  let* _ := emit (containerState c) GaugeValue (float64_of_Z stateCode) [id; name] in
  let* uptime :=
    if ContainerInfo.Running cont && negb (time.IsZero (ContainerInfo.Started cont))
    then let* d := Since (client c) (ContainerInfo.Started cont) in
         ret (time.Seconds d)
    else ret 0%float in
  let* _ := emit (containerUptime c) GaugeValue uptime [id; name] in
  let* _ :=
    if negb (time.IsZero (ContainerInfo.Created cont))
    then emit (containerCreated c) GaugeValue
           (float64_of_Z (time.Unix (ContainerInfo.Created cont))) [id; name]
    else ret () in
  let* _ :=
    if negb (time.IsZero (ContainerInfo.Started cont))
    then emit (containerStarted c) GaugeValue
           (float64_of_Z (time.Unix (ContainerInfo.Started cont))) [id; name]
    else ret () in
  let* _ := emit (containerRestartCount c) GaugeValue
              (float64_of_Z (ContainerInfo.RestartCount cont)) [id; name] in
  let healthCode := healthToCode (ContainerInfo.Health cont) in
  let* _ := emit (containerHealthStatus c) GaugeValue
              (float64_of_Z healthCode) [id; name] in
  let* _ := emit (containerExitCode c) GaugeValue
              (float64_of_Z (ContainerInfo.ExitCode cont)) [id; name] in
  let oomKilled := if ContainerInfo.OOMKilled cont then 1%float else 0%float in
  let* _ := emit (containerOOMKilled c) GaugeValue oomKilled [id; name] in
  match statsMap !! id with
  | Some stats => emitResources c cont stats
  | None => ret ()
  end.

Definition collectContainerMetrics (c : Collector) : M unit :=
  let* listed := lift (ListContainers (client c)) in
  match listed with
  | Err _ => ret ()
  | Ok containers =>
      if decide (length containers = 0) then ret ()
      else
        let* posted := lift (fetch_running (client c) containers) in
        let statsMap := collect_statsMap (arrival (client c) posted) in
        for_range containers (emitContainer c statsMap)
  end.

Definition collectEngineMetrics (c : Collector) : M unit :=
  match GetEngineInfo (client c) with
  | Err _ => ret ()
  | Ok info =>
      let* _ := emit (engineInfo c) GaugeValue 1
                  [EngineInfo.Version info; EngineInfo.OS info;
                   EngineInfo.Arch info; EngineInfo.KernelVersion info] in
      let* _ := emit (containersTotal c) GaugeValue
                  (float64_of_Z (EngineInfo.ContainersRunning info)) ["running"] in
      let* _ := emit (containersTotal c) GaugeValue
                  (float64_of_Z (EngineInfo.ContainersPaused info)) ["paused"] in
      let* _ := emit (containersTotal c) GaugeValue
                  (float64_of_Z (EngineInfo.ContainersStopped info)) ["stopped"] in
      emit (imagesTotal c) GaugeValue (float64_of_Z (EngineInfo.Images info)) []
  end.

Definition Collect (c : Collector) : M unit :=
  let* start := Now (client c) in
  let* _ := emit (buildInfo c) GaugeValue 1
              [config_Version (client c); config_GoVersion (client c)] in
  let* _ := collectContainerMetrics c in
  let* _ := collectEngineMetrics c in
  let* d := Since (client c) start in
  emit (scrapeDuration c) GaugeValue (time.Seconds d) [].

(** One scrape: what the registry gathers from a call of [Collect] that
    starts with an unread clock. *)
Definition scrape (c : Collector) : Outcome (list Metric) :=
  match Collect c 0 with
  | Panicked => Panicked
  | Returned (_, _, out) => Returned out
  end.

(** * Specification vocabulary

    List forms of what the collector sends, and the notions the
    properties are stated with. *)

(** [runs m k a k' out]: started after [k] clock readings, [m] returns [a]
    after [k'] readings, having sent [out]. *)
Definition runs {A} (m : M A) (k : nat) (a : A) (k' : nat) (out : list Metric) : Prop :=
  m k = Returned (a, k', out).

(** The snapshot of a listed container, when its lookup went through. *)
Definition detail (w : World) (cont : Summary.t) : option ContainerInfo.t :=
  match InspectContainer w (Summary.ID cont) with
  | Returned (Ok info) => Some info
  | _ => None
  end.

(** Whether the daemon answered the detail lookup of a listed container. *)
Definition inspect_ok (w : World) (cont : Summary.t) : bool :=
  match cli_ContainerInspect w (Summary.ID cont) with
  | Ok _ => true
  | Err _ => false
  end.

(** The runtime hands out identifiers of at least twelve bytes. *)
Definition long_id (w : World) (cont : Summary.t) : Prop :=
  match cli_ContainerInspect w (Summary.ID cont) with
  | Ok inspect => 12 ≤ String.length (InspectResponse.ID inspect)
  | Err _ => True
  end.

Definition long_ids (w : World) (containers : list Summary.t) : Prop :=
  Forall (long_id w) containers.

(** The sample a running container contributes to the channel, if any. *)
Definition fetched (w : World) (cont : ContainerInfo.t) : option ContainerStats.t :=
  if ContainerInfo.Running cont then
    match GetContainerStats w (ContainerInfo.ID cont) (ContainerInfo.Name cont) with
    | Returned (Ok stats) => Some stats
    | _ => None
    end
  else None.

(** ** The metrics of a scrape, as lists *)

Section MetricLists.

Variable w : World.
Variable cfg : Config.t.

Let c : Collector := NewCollector w cfg.

(** The two series of one network interface. *)
Definition interface_metrics (cont : ContainerInfo.t)
    (entry : string * NetworkStats.t) : list Metric :=
  let id := ContainerInfo.ID cont in
  let name := ContainerInfo.Name cont in
  [ mkMetric (containerNetworkRxBytes c) CounterValue
      (float64_of_Z (NetworkStats.RxBytes entry.2)) [id; name; entry.1];
    mkMetric (containerNetworkTxBytes c) CounterValue
      (float64_of_Z (NetworkStats.TxBytes entry.2)) [id; name; entry.1] ].

(** What [emitResources] sends. *)
Definition resource_metrics (cont : ContainerInfo.t)
    (stats : ContainerStats.t) : list Metric :=
  let id := ContainerInfo.ID cont in
  let name := ContainerInfo.Name cont in
  [ mkMetric (containerCPUPercent c) GaugeValue
      (ContainerStats.CPUPercent stats) [id; name];
    mkMetric (containerCPUUsageSeconds c) CounterValue
      (float64_of_Z (ContainerStats.CPUUsageTotal stats) / 1000000000)%float
      [id; name];
    mkMetric (containerMemoryUsage c) GaugeValue
      (float64_of_Z (ContainerStats.MemoryUsage stats)) [id; name];
    mkMetric (containerMemoryLimit c) GaugeValue
      (float64_of_Z (ContainerStats.MemoryLimit stats)) [id; name];
    mkMetric (containerMemoryPercent c) GaugeValue
      (ContainerStats.MemoryPercent stats) [id; name] ]
  ++ concat (interface_metrics cont <$> map_to_list (ContainerStats.Networks stats))
  ++ [ mkMetric (containerBlkioReadBytes c) CounterValue
         (float64_of_Z (ContainerStats.BlockRead stats)) [id; name];
       mkMetric (containerBlkioWriteBytes c) CounterValue
         (float64_of_Z (ContainerStats.BlockWrite stats)) [id; name] ].

(** Whether the emission loop reads the clock for this container. *)
Definition reads_clock (cont : ContainerInfo.t) : bool :=
  ContainerInfo.Running cont && negb (time.IsZero (ContainerInfo.Started cont)).

(** The value of the uptime series when the clock reads [now]. *)
Definition uptime_at (cont : ContainerInfo.t) (now : time.Time) : float :=
  if reads_clock cont
  then time.Seconds (time.Sub now (ContainerInfo.Started cont))
  else 0%float.

(** The series sent for every container, whatever its timestamps. *)
Definition info_metric (cont : ContainerInfo.t) : Metric :=
  mkMetric (containerInfo c) GaugeValue 1
    [ContainerInfo.ID cont; ContainerInfo.Name cont;
     ContainerInfo.Image cont; ContainerInfo.State cont].

Definition state_metric (cont : ContainerInfo.t) : Metric :=
  mkMetric (containerState c) GaugeValue
    (float64_of_Z (stateToCode (ContainerInfo.State cont)))
    [ContainerInfo.ID cont; ContainerInfo.Name cont].

Definition uptime_metric (cont : ContainerInfo.t) (now : time.Time) : Metric :=
  mkMetric (containerUptime c) GaugeValue (uptime_at cont now)
    [ContainerInfo.ID cont; ContainerInfo.Name cont].

Definition created_metric (cont : ContainerInfo.t) : Metric :=
  mkMetric (containerCreated c) GaugeValue
    (float64_of_Z (time.Unix (ContainerInfo.Created cont)))
    [ContainerInfo.ID cont; ContainerInfo.Name cont].

Definition started_metric (cont : ContainerInfo.t) : Metric :=
  mkMetric (containerStarted c) GaugeValue
    (float64_of_Z (time.Unix (ContainerInfo.Started cont)))
    [ContainerInfo.ID cont; ContainerInfo.Name cont].

Definition restart_metric (cont : ContainerInfo.t) : Metric :=
  mkMetric (containerRestartCount c) GaugeValue
    (float64_of_Z (ContainerInfo.RestartCount cont))
    [ContainerInfo.ID cont; ContainerInfo.Name cont].

Definition health_metric (cont : ContainerInfo.t) : Metric :=
  mkMetric (containerHealthStatus c) GaugeValue
    (float64_of_Z (healthToCode (ContainerInfo.Health cont)))
    [ContainerInfo.ID cont; ContainerInfo.Name cont].

Definition exit_metric (cont : ContainerInfo.t) : Metric :=
  mkMetric (containerExitCode c) GaugeValue
    (float64_of_Z (ContainerInfo.ExitCode cont))
    [ContainerInfo.ID cont; ContainerInfo.Name cont].

Definition oom_metric (cont : ContainerInfo.t) : Metric :=
  mkMetric (containerOOMKilled c) GaugeValue
    (if ContainerInfo.OOMKilled cont then 1%float else 0%float)
    [ContainerInfo.ID cont; ContainerInfo.Name cont].

(** What one turn of the emission loop sends when the clock reads [now]. *)
Definition container_metrics (statsMap : gmap string ContainerStats.t)
    (cont : ContainerInfo.t) (now : time.Time) : list Metric :=
  [info_metric cont; state_metric cont; uptime_metric cont now]
  ++ (if time.IsZero (ContainerInfo.Created cont) then [] else [created_metric cont])
  ++ (if time.IsZero (ContainerInfo.Started cont) then [] else [started_metric cont])
  ++ [restart_metric cont; health_metric cont; exit_metric cont; oom_metric cont]
  ++ match statsMap !! ContainerInfo.ID cont with
     | Some stats => resource_metrics cont stats
     | None => []
     end.

(** Clock readings made by the emission loop over [containers]. *)
Definition clock_reads (containers : list ContainerInfo.t) : nat :=
  length (filter (λ cont, reads_clock cont = true) containers).

(** What the whole emission loop sends, started after [k] readings. *)
Fixpoint emitted (statsMap : gmap string ContainerStats.t)
    (containers : list ContainerInfo.t) (k : nat) : list Metric :=
  match containers with
  | [] => []
  | cont :: rest =>
      container_metrics statsMap cont (time_Now w k)
      ++ emitted statsMap rest (if reads_clock cont then S k else k)
  end.

(** What [collectEngineMetrics] sends. *)
Definition engine_metrics : list Metric :=
  match GetEngineInfo w with
  | Err _ => []
  | Ok info =>
      [ mkMetric (engineInfo c) GaugeValue 1
          [EngineInfo.Version info; EngineInfo.OS info;
           EngineInfo.Arch info; EngineInfo.KernelVersion info];
        mkMetric (containersTotal c) GaugeValue
          (float64_of_Z (EngineInfo.ContainersRunning info)) ["running"];
        mkMetric (containersTotal c) GaugeValue
          (float64_of_Z (EngineInfo.ContainersPaused info)) ["paused"];
        mkMetric (containersTotal c) GaugeValue
          (float64_of_Z (EngineInfo.ContainersStopped info)) ["stopped"];
        mkMetric (imagesTotal c) GaugeValue
          (float64_of_Z (EngineInfo.Images info)) [] ]
  end.

Definition build_metric : Metric :=
  mkMetric (buildInfo c) GaugeValue 1 [config_Version w; config_GoVersion w].

(** The scrape-duration series when the last clock reading is [k]. *)
Definition duration_metric (k : nat) : Metric :=
  mkMetric (scrapeDuration c) GaugeValue
    (time.Seconds (time.Sub (time_Now w k) (time_Now w 0))) [].

(** The map of samples the emission loop consults. *)
Definition scrape_statsMap (containers : list ContainerInfo.t)
  : gmap string ContainerStats.t :=
  collect_statsMap (arrival w (omap (fetched w) containers)).

(** The container series of a scrape that listed [containers]; the
    first clock reading was taken by [Collect] itself. *)
Definition container_series (containers : list ContainerInfo.t) : list Metric :=
  emitted (scrape_statsMap containers) containers 1.

End MetricLists.

(** ** Descriptor groups and labels *)

(** The descriptors of the series sent for every listed container. *)
Definition always_descs (c : Collector) : list Desc :=
  [containerInfo c; containerState c; containerUptime c;
   containerRestartCount c; containerHealthStatus c; containerExitCode c;
   containerOOMKilled c].

(** The descriptors of the resource series with one sample per container. *)
Definition sample_descs (c : Collector) : list Desc :=
  [containerCPUPercent c; containerCPUUsageSeconds c; containerMemoryUsage c;
   containerMemoryLimit c; containerMemoryPercent c;
   containerBlkioReadBytes c; containerBlkioWriteBytes c].

(** The descriptors of the per-interface network series. *)
Definition network_descs (c : Collector) : list Desc :=
  [containerNetworkRxBytes c; containerNetworkTxBytes c].

Definition resource_descs (c : Collector) : list Desc :=
  sample_descs c ++ network_descs c.

(** The descriptors of all container-scoped series. *)
Definition container_descs (c : Collector) : list Desc :=
  always_descs c ++ [containerCreated c; containerStarted c] ++ resource_descs c.

(** A container-scoped metric belongs to the container whose identifier
    is its first label value. *)
Definition for_container (cont : ContainerInfo.t) (m : Metric) : Prop :=
  labelValues m !! 0 = Some (ContainerInfo.ID cont).

(** [out] has a series of descriptor [d] for [cont]. *)
Definition has_series (out : list Metric) (d : Desc) (cont : ContainerInfo.t) : Prop :=
  ∃ m, m ∈ out ∧ desc m = d ∧ for_container cont m.

(** ** The mappings as the specification words them *)

Definition lifecycle_codes : list (string * Z) :=
  [("running", 1%Z); ("paused", 2%Z); ("restarting", 3%Z);
   ("exited", 4%Z); ("dead", 5%Z); ("created", 6%Z)].

Definition health_codes : list (string * Z) :=
  [("healthy", 1%Z); ("unhealthy", 0%Z); ("starting", 2%Z)].

(** The code a table gives to a key, [default] when the key is absent. *)
Fixpoint code_of (table : list (string * Z)) (default : Z) (key : string) : Z :=
  match table with
  | [] => default
  | (k, v) :: rest => if decide (key = k) then v else code_of rest default key
  end.

(** ** The channel and the whole scrape *)

(** The channel hands over every posted sample, once. *)
Definition channel_delivers (w : World) : Prop :=
  ∀ posted, arrival w posted ≡ₚ posted.

(** The metrics of a scrape that listed [containers]. *)
Definition listed_scrape (w : World) (cfg : Config.t)
    (containers : list ContainerInfo.t) : list Metric :=
  build_metric w cfg
  :: container_series w cfg containers
  ++ engine_metrics w cfg
  ++ [duration_metric w cfg (1 + clock_reads containers)].

(** ** Statements that the code does not satisfy

    Each is refuted on a world of the next section. *)

(** "A failed listing leaves only build-info and scrape-duration." *)
Definition failed_listing_leaves_fixed_metrics (w : World) (cfg : Config.t) : Prop :=
  ∀ e out,
    cli_ContainerList w = Err e →
    scrape (NewCollector w cfg) = Returned out →
    Forall (λ m, desc m = buildInfo (NewCollector w cfg)
                 ∨ desc m = scrapeDuration (NewCollector w cfg)) out.

(** "Timestamp series are sent for every listed container." *)
Definition timestamps_always_emitted (w : World) (cfg : Config.t) : Prop :=
  ∀ containers out cont,
    ListContainers w = Returned (Ok containers) →
    scrape (NewCollector w cfg) = Returned out →
    cont ∈ containers →
    has_series out (containerCreated (NewCollector w cfg)) cont
    ∧ has_series out (containerStarted (NewCollector w cfg)) cont.

(** "Uptime is counted from the instant the scrape started." *)
Definition uptime_from_scrape_start (w : World) (cfg : Config.t) : Prop :=
  ∀ containers out cont m,
    ListContainers w = Returned (Ok containers) →
    scrape (NewCollector w cfg) = Returned out →
    cont ∈ containers → m ∈ out →
    desc m = containerUptime (NewCollector w cfg) → for_container cont m →
    value m = uptime_at cont (time_Now w 0).

(** "Uptime is never negative." *)
Definition uptime_never_negative (w : World) (cfg : Config.t) : Prop :=
  ∀ out m,
    scrape (NewCollector w cfg) = Returned out →
    m ∈ out → desc m = containerUptime (NewCollector w cfg) →
    (value m <? 0)%float = false.

(** ** Sample worlds *)

Definition ndocker : Config.t :=
  {| Config.Prefix := "ndocker"; Config.Timeout := (2 * time.Second)%Z |}.

(** 2025-01-01T00:00:00Z. *)
Definition new_year : time.Time := (63871286400 * time.Second)%Z.

Definition parse_sample (s : string) : option time.Time :=
  if decide (s = "0001-01-01T00:00:00Z") then Some time.zero
  else if decide (s = "2025-01-01T00:00:00Z") then Some new_year
  else if decide (s = "2025-01-01T00:09:10Z") then Some (new_year + 550 * time.Second)%Z
  else if decide (s = "2025-01-01T00:11:40Z") then Some (new_year + 700 * time.Second)%Z
  else None.

(** The clock reads 00:10:00 when the scrape starts and two seconds more at
    each later reading. *)
Definition clock_sample (k : nat) : time.Time :=
  (new_year + 600 * time.Second + Z.of_nat k * (2 * time.Second))%Z.

Definition MiB : Z := (1024 * 1024)%Z.

(** Usage grew by 200,000,000 ns while the system counter grew by
    1,000,000,000, on two CPUs; 512 MiB used of 1024 MiB. *)
Definition sample_stats : StatsResponse.t :=
  {| StatsResponse.CPUStats :=
       {| CPUStats.TotalUsage := 5200000000; CPUStats.PercpuUsage := [];
          CPUStats.SystemUsage := 91000000000; CPUStats.OnlineCPUs := 2 |};
     StatsResponse.PreCPUStats :=
       {| CPUStats.TotalUsage := 5000000000; CPUStats.PercpuUsage := [];
          CPUStats.SystemUsage := 90000000000; CPUStats.OnlineCPUs := 2 |};
     StatsResponse.MemoryUsage := (512 * MiB)%Z;
     StatsResponse.MemoryLimit := (1024 * MiB)%Z;
     StatsResponse.Networks :=
       {[ "eth0" := {| NetworkStats.RxBytes := 1500; NetworkStats.TxBytes := 900 |} ]};
     StatsResponse.IoServiceBytesRecursive :=
       [ {| BlkioStatEntry.Op := "read"; BlkioStatEntry.Value := 4096 |};
         {| BlkioStatEntry.Op := "Write"; BlkioStatEntry.Value := 8192 |};
         {| BlkioStatEntry.Op := "sync"; BlkioStatEntry.Value := 1 |} ];
     StatsResponse.PidsCurrent := 7 |}.

(** The usage counter was reset between the two readings: it went from
    200 down to 100 while the system counter went from 1000 up to 2000. *)
Definition reset_stats : StatsResponse.t :=
  {| StatsResponse.CPUStats :=
       {| CPUStats.TotalUsage := 100; CPUStats.PercpuUsage := [];
          CPUStats.SystemUsage := 2000; CPUStats.OnlineCPUs := 1 |};
     StatsResponse.PreCPUStats :=
       {| CPUStats.TotalUsage := 200; CPUStats.PercpuUsage := [];
          CPUStats.SystemUsage := 1000; CPUStats.OnlineCPUs := 1 |};
     StatsResponse.MemoryUsage := 0;
     StatsResponse.MemoryLimit := 0;
     StatsResponse.Networks := ∅;
     StatsResponse.IoServiceBytesRecursive := [];
     StatsResponse.PidsCurrent := 1 |}.

Definition id_web : string := "4f1c0a9b7e2d5a6c8b3e1f70".
Definition id_db : string := "9a3b5c7d1e2f4a6b8c0d2e4f".
Definition id_cache : string := "c0ffee1234567890abcdef12".
Definition id_job : string := "0123456789abcdef01234567".
Definition id_gone : string := "deadbeef0000111122223333".

Definition inspect_sample (id name image status : string) (running : bool)
    (created startedAt : string) : InspectResponse.t :=
  {| InspectResponse.ID := id;
     InspectResponse.Name := name;
     InspectResponse.Created := created;
     InspectResponse.Image := image;
     InspectResponse.State :=
       {| ContainerState.Status := status;
          ContainerState.Running := running;
          ContainerState.OOMKilled := false;
          ContainerState.ExitCode := 0;
          ContainerState.StartedAt := startedAt;
          ContainerState.FinishedAt := "0001-01-01T00:00:00Z";
          ContainerState.Health := None |};
     InspectResponse.RestartCount := 0 |}.

Definition info_sample : SystemInfo.t :=
  {| SystemInfo.ServerVersion := "27.3.1";
     SystemInfo.OperatingSystem := "Ubuntu 24.04";
     SystemInfo.Architecture := "x86_64";
     SystemInfo.KernelVersion := "6.8.0";
     SystemInfo.ContainersRunning := 3;
     SystemInfo.ContainersPaused := 0;
     SystemInfo.ContainersStopped := 1;
     SystemInfo.Images := 12;
     SystemInfo.NCPU := 4;
     SystemInfo.MemTotal := (8192 * MiB)%Z |}.

Definition fleet_listing : list Summary.t :=
  [Summary.mk id_web; Summary.mk id_db; Summary.mk id_gone;
   Summary.mk id_cache; Summary.mk id_job].

(** Three running containers and one never started; a fifth disappears
    between the listing and its lookup.  The fetch for [db] times out.
    [cache] reports a start instant ahead of the exporter's clock; [job]
    has the zero instant for both timestamps.  Samples arrive in the
    reverse of the order in which the fetches were started. *)
Definition fleet : World :=
  {| cli_ContainerList := Ok fleet_listing;
     cli_ContainerInspect := λ id,
       if decide (id = id_web) then
         Ok (inspect_sample id "/web" "nginx:1.27" "running" true
               "2025-01-01T00:00:00Z" "2025-01-01T00:09:10Z")
       else if decide (id = id_db) then
         Ok (inspect_sample id "/db" "postgres:16" "running" true
               "2025-01-01T00:00:00Z" "2025-01-01T00:09:10Z")
       else if decide (id = id_cache) then
         Ok (inspect_sample id "/cache" "redis:7" "running" true
               "2025-01-01T00:00:00Z" "2025-01-01T00:11:40Z")
       else if decide (id = id_job) then
         Ok (inspect_sample id "/job" "alpine:3" "created" false
               "0001-01-01T00:00:00Z" "0001-01-01T00:00:00Z")
       else Err TransportError;
     cli_ContainerStats := λ id,
       if decide (id = "9a3b5c7d1e2f") then StatsCallFailed Timeout
       else StatsDecoded sample_stats;
     cli_Info := Ok info_sample;
     time_Parse := parse_sample;
     time_Now := clock_sample;
     arrival := reverse;
     config_Version := "dev";
     config_GoVersion := "go1.23.4" |}.

Definition snapshot_sample (id name image state : string) (running : bool)
    (created started : time.Time) : ContainerInfo.t :=
  {| ContainerInfo.ID := id;
     ContainerInfo.Name := name;
     ContainerInfo.Image := image;
     ContainerInfo.State := state;
     ContainerInfo.Health := "none";
     ContainerInfo.Created := created;
     ContainerInfo.Started := started;
     ContainerInfo.Finished := time.zero;
     ContainerInfo.RestartCount := 0;
     ContainerInfo.ExitCode := 0;
     ContainerInfo.OOMKilled := false;
     ContainerInfo.Running := running |}.

(** The snapshots [ListContainers] builds in [fleet]. *)
Definition web : ContainerInfo.t :=
  snapshot_sample "4f1c0a9b7e2d" "web" "nginx:1.27" "running" true
    new_year (new_year + 550 * time.Second)%Z.
Definition db : ContainerInfo.t :=
  snapshot_sample "9a3b5c7d1e2f" "db" "postgres:16" "running" true
    new_year (new_year + 550 * time.Second)%Z.
Definition cache : ContainerInfo.t :=
  snapshot_sample "c0ffee123456" "cache" "redis:7" "running" true
    new_year (new_year + 700 * time.Second)%Z.
Definition job : ContainerInfo.t :=
  snapshot_sample "0123456789ab" "job" "alpine:3" "created" false
    time.zero time.zero.

Definition fleet_snapshots : list ContainerInfo.t := [web; db; cache; job].

(** The listing fails while the engine still answers. *)
Definition outage : World :=
  {| cli_ContainerList := Err TransportError;
     cli_ContainerInspect := λ _, Err TransportError;
     cli_ContainerStats := λ _, StatsCallFailed TransportError;
     cli_Info := Ok info_sample;
     time_Parse := parse_sample;
     time_Now := clock_sample;
     arrival := λ l, l;
     config_Version := "dev";
     config_GoVersion := "go1.23.4" |}.

(** ** Vocabulary of the further properties *)

(** The descriptors of the series sent as counters. *)
Definition counter_descs (c : Collector) : list Desc :=
  [containerCPUUsageSeconds c; containerNetworkRxBytes c;
   containerNetworkTxBytes c; containerBlkioReadBytes c;
   containerBlkioWriteBytes c].

(** A metric agrees with the collector's declarations: its descriptor is
    one of those [Describe] announces and it has one label value per
    label name of that descriptor. *)
Definition described (c : Collector) (m : Metric) : Prop :=
  desc m ∈ Describe c
  ∧ length (labelValues m) = length (variableLabels (desc m)).

(** A metric is typed as the collector types its series: a counter
    exactly under the descriptors of the cumulative series. *)
Definition typed (c : Collector) (m : Metric) : Prop :=
  valueType m = CounterValue ↔ desc m ∈ counter_descs c.

#[global] Instance ValueType_eq_dec : EqDecision ValueType.
Proof. solve_decision. Defined.

(** The sum of a list of integers. *)
Definition sum_Z (l : list Z) : Z := foldr Z.add 0%Z l.

(** Whether [GetContainerStats] counts a block-IO entry as read (write). *)
Definition is_read (entry : BlkioStatEntry.t) : Prop :=
  BlkioStatEntry.Op entry = "read" ∨ BlkioStatEntry.Op entry = "Read".

Definition is_write (entry : BlkioStatEntry.t) : Prop :=
  BlkioStatEntry.Op entry = "write" ∨ BlkioStatEntry.Op entry = "Write".

(** The world [w] with another order of arrival on the channel. *)
Definition with_arrival (w : World)
    (order : list ContainerStats.t → list ContainerStats.t) : World :=
  {| cli_ContainerList := cli_ContainerList w;
     cli_ContainerInspect := cli_ContainerInspect w;
     cli_ContainerStats := cli_ContainerStats w;
     cli_Info := cli_Info w;
     time_Parse := time_Parse w;
     time_Now := time_Now w;
     arrival := order;
     config_Version := config_Version w;
     config_GoVersion := config_GoVersion w |}.

(** [stats] with another number of online CPUs reported. *)
Definition with_OnlineCPUs (stats : StatsResponse.t) (n : Z) : StatsResponse.t :=
  {| StatsResponse.CPUStats :=
       {| CPUStats.TotalUsage := CPUStats.TotalUsage (StatsResponse.CPUStats stats);
          CPUStats.PercpuUsage := CPUStats.PercpuUsage (StatsResponse.CPUStats stats);
          CPUStats.SystemUsage := CPUStats.SystemUsage (StatsResponse.CPUStats stats);
          CPUStats.OnlineCPUs := n |};
     StatsResponse.PreCPUStats := StatsResponse.PreCPUStats stats;
     StatsResponse.MemoryUsage := StatsResponse.MemoryUsage stats;
     StatsResponse.MemoryLimit := StatsResponse.MemoryLimit stats;
     StatsResponse.Networks := StatsResponse.Networks stats;
     StatsResponse.IoServiceBytesRecursive :=
       StatsResponse.IoServiceBytesRecursive stats;
     StatsResponse.PidsCurrent := StatsResponse.PidsCurrent stats |}.

#[global] Instance is_read_dec (entry : BlkioStatEntry.t) : Decision (is_read entry) :=
  decide (BlkioStatEntry.Op entry = "read" ∨ BlkioStatEntry.Op entry = "Read").

#[global] Instance is_write_dec (entry : BlkioStatEntry.t) : Decision (is_write entry) :=
  decide (BlkioStatEntry.Op entry = "write" ∨ BlkioStatEntry.Op entry = "Write").

(** ** More sample worlds *)

(** [fleet] with the engine lookup failing. *)
Definition engine_down : World :=
  {| cli_ContainerList := cli_ContainerList fleet;
     cli_ContainerInspect := cli_ContainerInspect fleet;
     cli_ContainerStats := cli_ContainerStats fleet;
     cli_Info := Err TransportError;
     time_Parse := time_Parse fleet;
     time_Now := time_Now fleet;
     arrival := arrival fleet;
     config_Version := config_Version fleet;
     config_GoVersion := config_GoVersion fleet |}.

(** Every listed container is gone by the time it is looked up. *)
Definition all_gone : World :=
  {| cli_ContainerList := Ok fleet_listing;
     cli_ContainerInspect := λ _, Err TransportError;
     cli_ContainerStats := λ _, StatsCallFailed TransportError;
     cli_Info := Ok info_sample;
     time_Parse := parse_sample;
     time_Now := clock_sample;
     arrival := λ l, l;
     config_Version := "dev";
     config_GoVersion := "go1.23.4" |}.


(** Lower case on the ASCII letters, for the sample command lines. *)
Definition lower_ascii (a : Ascii.ascii) : Ascii.ascii :=
  let n := Ascii.nat_of_ascii a in
  if bool_decide (65 ≤ n ≤ 90) then Ascii.ascii_of_nat (n + 32) else a.

Fixpoint lower_sample (s : string) : string :=
  match s with
  | EmptyString => EmptyString
  | String a rest => String (lower_ascii a) (lower_sample rest)
  end.

(** The command line [--endpoint /metrics --output ALL --log-level Debug],
    the other flags at their defaults. *)
Definition flags_sample : ParsedConfig.t :=
  {| ParsedConfig.Host := "0.0.0.0";
     ParsedConfig.Port := 9324;
     ParsedConfig.Endpoint := "/metrics";
     ParsedConfig.Prefix := "ndocker";
     ParsedConfig.LogLevel := "Debug";
     ParsedConfig.LogPath := "";
     ParsedConfig.DockerHost := "tcp://localhost:2375";
     ParsedConfig.OutputMode := "ALL";
     ParsedConfig.Timeout := (2 * time.Second)%Z |}.

(** * Properties *)

(** ** Running a computation *)

Lemma runs_ret {A} (a : A) k : runs (ret a) k a k [].
Proof. reflexivity. Qed.

Lemma runs_bind {A B} (m : M A) (f : A → M B) k a k1 out1 b k2 out2 :
  runs m k a k1 out1 → runs (f a) k1 b k2 out2 →
  runs (bind m f) k b k2 (out1 ++ out2).
Proof. unfold runs, bind. intros -> ->. reflexivity. Qed.

Lemma runs_emit d vt v lvs k :
  length lvs = length (variableLabels d) →
  runs (emit d vt v lvs) k () k [mkMetric d vt v lvs].
Proof.
  intros Hlen. unfold runs, emit, bind, lift, MustNewConstMetric.
  rewrite decide_True by exact Hlen. reflexivity.
Qed.

Lemma runs_bind_silent {A B} (m : M A) (f : A → M B) k a k1 b k2 out :
  runs m k a k1 [] → runs (f a) k1 b k2 out → runs (bind m f) k b k2 out.
Proof. intros H1 H2. apply (runs_bind _ _ _ _ _ _ _ _ _ H1 H2). Qed.

Lemma runs_emit_then {B} d vt v lvs (f : unit → M B) k b k2 out :
  length lvs = length (variableLabels d) →
  runs (f ()) k b k2 out →
  runs (bind (emit d vt v lvs) f) k b k2 (mkMetric d vt v lvs :: out).
Proof.
  intros Hlen Hf.
  apply (runs_bind _ _ _ _ _ _ _ _ _ (runs_emit d vt v lvs k Hlen) Hf).
Qed.

Lemma runs_Since w t k :
  runs (Since w t) k (time.Sub (time_Now w k) t) (S k) [].
Proof. reflexivity. Qed.

Lemma runs_for_range_app {A} (body : A → M unit) (f : A → list Metric) l k :
  (∀ x k', runs (body x) k' () k' (f x)) →
  runs (for_range l body) k () k (concat (f <$> l)).
Proof.
  intros Hbody. induction l as [|x l IH]; [reflexivity|].
  simpl. eapply runs_bind; [apply Hbody | exact IH].
Qed.

(** ** The collector sends the listed metrics *)

Section Runs.

Variable w : World.
Variable cfg : Config.t.

Let c : Collector := NewCollector w cfg.

Lemma emitResources_runs cont stats k :
  runs (emitResources c cont stats) k () k (resource_metrics w cfg cont stats).
Proof.
  unfold emitResources, resource_metrics. simpl.
  do 5 (apply runs_emit_then; [reflexivity|]).
  eapply (runs_bind _ _ _ ()).
  { apply (runs_for_range_app _ (interface_metrics w cfg cont)).
    intros [iface netStats] k'. unfold interface_metrics.
    apply runs_emit_then; [reflexivity|]. apply runs_emit. reflexivity. }
  apply runs_emit_then; [reflexivity|]. apply runs_emit. reflexivity.
Qed.

Lemma emitContainer_runs statsMap cont k :
  runs (emitContainer c statsMap cont) k ()
    (if reads_clock cont then S k else k)
    (container_metrics w cfg statsMap cont (time_Now w k)).
Proof.
  unfold emitContainer, container_metrics, uptime_metric, uptime_at, reads_clock.
  simpl.
  do 2 (apply runs_emit_then; [reflexivity|]).
  destruct (ContainerInfo.Running cont
            && negb (time.IsZero (ContainerInfo.Started cont)));
    (eapply runs_bind_silent; [reflexivity|]);
    (apply runs_emit_then; [reflexivity|]);
    destruct (time.IsZero (ContainerInfo.Created cont));
    destruct (time.IsZero (ContainerInfo.Started cont)); simpl;
    repeat first [ apply runs_emit_then; [reflexivity|]
                 | eapply runs_bind_silent; [reflexivity|] ];
    (destruct (statsMap !! ContainerInfo.ID cont) as [stats|];
     [apply emitResources_runs | apply runs_ret]).
Qed.

Lemma for_range_emitContainer_runs statsMap containers k :
  runs (for_range containers (emitContainer c statsMap)) k ()
    (k + clock_reads containers) (emitted w cfg statsMap containers k).
Proof.
  revert k. induction containers as [|cont rest IH]; intros k.
  { unfold clock_reads. simpl. rewrite Nat.add_0_r. apply runs_ret. }
  cbn [for_range emitted]. eapply runs_bind; [apply emitContainer_runs|].
  unfold clock_reads. rewrite filter_cons.
  destruct (reads_clock cont) eqn:Hreads.
  - rewrite decide_True by reflexivity. cbn [length].
    replace (k + S _) with (S k + clock_reads rest) by (unfold clock_reads; lia).
    apply IH.
  - rewrite decide_False by discriminate. apply IH.
Qed.

Lemma collectEngineMetrics_runs k :
  runs (collectEngineMetrics c) k () k (engine_metrics w cfg).
Proof.
  unfold collectEngineMetrics, engine_metrics. simpl.
  destruct (GetEngineInfo w) as [info|e]; [|apply runs_ret].
  do 4 (apply runs_emit_then; [reflexivity|]). apply runs_emit. reflexivity.
Qed.

End Runs.

(** ** Strings and slices *)

Lemma length_substring_0 (s : string) (n : nat) :
  n ≤ String.length s → String.length (String.substring 0 n s) = n.
Proof.
  revert s. induction n as [|n IH]; intros s Hn.
  - destruct s; reflexivity.
  - destruct s as [|a s]; simpl in *; [lia|]. rewrite IH by lia. reflexivity.
Qed.

Lemma substring_0_length (s : string) :
  String.substring 0 (String.length s) s = s.
Proof. induction s as [|a s IH]; simpl; [reflexivity|]. rewrite IH. reflexivity. Qed.

Lemma slice_to_length (s short : string) (n : nat) :
  slice_to s n = Returned short → String.length short = n.
Proof.
  unfold slice_to. case_decide; [|discriminate].
  intros [= <-]. apply length_substring_0. assumption.
Qed.

Lemma slice_to_whole (s : string) : slice_to s (String.length s) = Returned s.
Proof.
  unfold slice_to. rewrite decide_True by reflexivity.
  rewrite substring_0_length. reflexivity.
Qed.

Lemma slice_to_long (s : string) (n : nat) :
  n ≤ String.length s → slice_to s n = Returned (String.substring 0 n s).
Proof. intros Hn. unfold slice_to. rewrite decide_True by exact Hn. reflexivity. Qed.

(** ** The client *)

Lemma InspectContainer_ID_length w containerID info :
  InspectContainer w containerID = Returned (Ok info) →
  String.length (ContainerInfo.ID info) = 12.
Proof.
  unfold InspectContainer.
  destruct (cli_ContainerInspect w containerID) as [inspect|e]; [|discriminate].
  destruct (slice_to (InspectResponse.ID inspect) 12) as [short|] eqn:Hslice;
    [|discriminate].
  intros [= <-]. simpl. eapply slice_to_length, Hslice.
Qed.

Lemma InspectContainer_Err w containerID e :
  cli_ContainerInspect w containerID = Err e →
  InspectContainer w containerID = Returned (Err e).
Proof. unfold InspectContainer. intros ->. reflexivity. Qed.

Lemma InspectContainer_Ok w containerID inspect :
  cli_ContainerInspect w containerID = Ok inspect →
  12 ≤ String.length (InspectResponse.ID inspect) →
  ∃ info, InspectContainer w containerID = Returned (Ok info).
Proof.
  unfold InspectContainer. intros -> Hlen.
  rewrite slice_to_long by exact Hlen. eexists. reflexivity.
Qed.

Lemma ListContainers_loop_detail w containers result :
  long_ids w containers →
  ListContainers_loop w containers result
  = Returned (result ++ omap (detail w) containers).
Proof.
  intros Hlong. revert result.
  induction Hlong as [|cont rest Hcont _ IH]; intros result.
  { simpl. rewrite app_nil_r. reflexivity. }
  simpl. unfold detail. unfold long_id in Hcont.
  destruct (cli_ContainerInspect w (Summary.ID cont)) as [inspect|e] eqn:Hcall.
  - destruct (InspectContainer_Ok w _ _ Hcall Hcont) as [info Hinfo].
    rewrite Hinfo, IH. rewrite <- app_assoc. reflexivity.
  - rewrite (InspectContainer_Err _ _ _ Hcall). apply IH.
Qed.

Lemma ListContainers_loop_ID_length w containers result out :
  Forall (λ info, String.length (ContainerInfo.ID info) = 12) result →
  ListContainers_loop w containers result = Returned out →
  Forall (λ info, String.length (ContainerInfo.ID info) = 12) out.
Proof.
  revert result. induction containers as [|cont rest IH]; intros result Hres; simpl.
  { intros [= <-]. exact Hres. }
  destruct (InspectContainer w (Summary.ID cont)) as [[info|e]|] eqn:Hinfo;
    [| |discriminate].
  - apply IH. apply Forall_app. split; [exact Hres|].
    constructor; [|constructor]. eapply InspectContainer_ID_length, Hinfo.
  - apply IH, Hres.
Qed.

Lemma ListContainers_ID_length w containers :
  ListContainers w = Returned (Ok containers) →
  Forall (λ info, String.length (ContainerInfo.ID info) = 12) containers.
Proof.
  unfold ListContainers. destruct (cli_ContainerList w) as [listed|e]; [|discriminate].
  destruct (ListContainers_loop w listed []) as [result|] eqn:Hloop; [|discriminate].
  intros [= <-]. eapply ListContainers_loop_ID_length, Hloop. constructor.
Qed.

Lemma ListContainers_Err w e :
  cli_ContainerList w = Err e → ListContainers w = Returned (Err e).
Proof. unfold ListContainers. intros ->. reflexivity. Qed.

Lemma GetContainerStats_short_id w containerID name :
  String.length containerID = 12 →
  GetContainerStats w containerID name ≠ Panicked
  ∧ ∀ stats, GetContainerStats w containerID name = Returned (Ok stats) →
             ContainerStats.ID stats = containerID
             ∧ ContainerStats.Name stats = name.
Proof.
  intros Hlen. unfold GetContainerStats.
  destruct (cli_ContainerStats w containerID) as [e|e|e|stats];
    try (split; [discriminate|intros ? [=]]).
  rewrite <- Hlen, slice_to_whole.
  destruct (fold_left add_network _ _) as [[nets rx] tx].
  destruct (fold_left add_blkio _ _) as [rd wr].
  split; [discriminate|]. intros stats' [= <-]. split; reflexivity.
Qed.

Lemma fetched_ID w cont stats :
  String.length (ContainerInfo.ID cont) = 12 →
  fetched w cont = Some stats →
  ContainerStats.ID stats = ContainerInfo.ID cont.
Proof.
  intros Hlen. unfold fetched. destruct (ContainerInfo.Running cont); [|discriminate].
  destruct (GetContainerStats w _ _) as [[stats'|e]|] eqn:Hget; try discriminate.
  intros [= <-]. eapply (GetContainerStats_short_id w _ _ Hlen), Hget.
Qed.

Lemma fetch_running_fetched w containers :
  Forall (λ info, String.length (ContainerInfo.ID info) = 12) containers →
  fetch_running w containers = Returned (omap (fetched w) containers).
Proof.
  induction 1 as [|cont rest Hlen _ IH]; [reflexivity|].
  simpl. unfold fetched at 1.
  destruct (ContainerInfo.Running cont); [|exact IH].
  destruct (GetContainerStats_short_id w _ (ContainerInfo.Name cont) Hlen) as [Hnp _].
  destruct (GetContainerStats w _ _) as [[stats|e]|]; [| |done].
  - rewrite IH. reflexivity.
  - exact IH.
Qed.

(** ** The map of samples *)

Lemma fold_insert_lookup (l : list ContainerStats.t)
    (m : gmap string ContainerStats.t) (k : string) :
  NoDup (ContainerStats.ID <$> l) →
  (∀ s, s ∈ l → ContainerStats.ID s = k →
        fold_left (λ acc s', <[ContainerStats.ID s' := s']> acc) l m !! k = Some s)
  ∧ (k ∉ ContainerStats.ID <$> l →
     fold_left (λ acc s', <[ContainerStats.ID s' := s']> acc) l m !! k = m !! k).
Proof.
  revert m. induction l as [|s0 l IH]; intros m Hnd.
  { split; [intros s Hs; inversion Hs | reflexivity]. }
  rewrite fmap_cons in Hnd. apply NoDup_cons in Hnd as [Hfresh Hnd].
  simpl. destruct (IH (<[ContainerStats.ID s0 := s0]> m) Hnd) as [IH1 IH2].
  split.
  - intros s Hs Hk. apply elem_of_cons in Hs as [->|Hs]; [|apply IH1; assumption].
    rewrite IH2 by (rewrite <- Hk; exact Hfresh).
    rewrite <- Hk. apply lookup_insert_eq.
  - intros Hk. apply not_elem_of_cons in Hk as [Hne Hk].
    rewrite IH2 by exact Hk. apply lookup_insert_ne. congruence.
Qed.

Lemma NoDup_fmap_elem_inj {A B} (f : A → B) (l : list A) (x y : A) :
  NoDup (f <$> l) → x ∈ l → y ∈ l → f x = f y → x = y.
Proof.
  induction l as [|a l IH]; intros Hnd Hx Hy Hxy; [inversion Hx|].
  rewrite fmap_cons in Hnd. apply NoDup_cons in Hnd as [Hfresh Hnd].
  apply elem_of_cons in Hx as [->|Hx]; apply elem_of_cons in Hy as [->|Hy].
  - reflexivity.
  - exfalso. apply Hfresh. rewrite Hxy. apply list_elem_of_fmap_2, Hy.
  - exfalso. apply Hfresh. rewrite <- Hxy. apply list_elem_of_fmap_2, Hx.
  - apply IH; assumption.
Qed.

Lemma fetched_ids_sublist w containers :
  Forall (λ info, String.length (ContainerInfo.ID info) = 12) containers →
  (ContainerStats.ID <$> omap (fetched w) containers)
    `sublist_of` (ContainerInfo.ID <$> containers).
Proof.
  induction 1 as [|cont rest Hlen _ IH]; [constructor|].
  simpl. destruct (fetched w cont) as [stats|] eqn:Hf.
  - rewrite fmap_cons, (fetched_ID _ _ _ Hlen Hf). apply sublist_skip, IH.
  - apply sublist_cons, IH.
Qed.

(** With distinct identifiers the map holds, under a container's
    identifier, the sample fetched for that very container, whatever the
    order in which the samples arrive. *)
Lemma statsMap_lookup w containers received cont :
  Forall (λ info, String.length (ContainerInfo.ID info) = 12) containers →
  NoDup (ContainerInfo.ID <$> containers) →
  received ≡ₚ omap (fetched w) containers →
  cont ∈ containers →
  collect_statsMap received !! ContainerInfo.ID cont = fetched w cont.
Proof.
  intros Hlen Hnd Hperm Hcont.
  assert (NoDup (ContainerStats.ID <$> received)) as Hnd'.
  { rewrite Hperm. exact (sublist_NoDup _ _ Hnd (fetched_ids_sublist w _ Hlen)). }
  destruct (fold_insert_lookup received ∅ (ContainerInfo.ID cont) Hnd') as [H1 H2].
  rewrite Forall_forall in Hlen.
  destruct (fetched w cont) as [stats|] eqn:Hf.
  - apply H1.
    + rewrite Hperm. apply list_elem_of_omap. exists cont. split; assumption.
    + apply (fetched_ID w); [apply Hlen|]; assumption.
  - unfold collect_statsMap. rewrite H2; [apply lookup_empty|].
    intros Hin. apply list_elem_of_fmap in Hin as (stats & Hid & Hin).
    rewrite Hperm in Hin. apply list_elem_of_omap in Hin as (cont' & Hcont' & Hf').
    assert (cont' = cont) as ->.
    { eapply (NoDup_fmap_elem_inj ContainerInfo.ID); eauto.
      rewrite Hid. symmetry. apply (fetched_ID w); [apply Hlen|]; assumption. }
    congruence.
Qed.

(** ** The shape of a scrape *)

Section Scrape.

Variable w : World.
Variable cfg : Config.t.

Let c : Collector := NewCollector w cfg.

Lemma collectContainerMetrics_listed containers k :
  ListContainers w = Returned (Ok containers) →
  runs (collectContainerMetrics c) k () (k + clock_reads containers)
    (emitted w cfg (scrape_statsMap w containers) containers k).
Proof.
  intros Hlist. unfold collectContainerMetrics. simpl client. rewrite Hlist.
  eapply runs_bind_silent; [apply runs_ret|]. cbv beta iota.
  case_decide as Hempty.
  { destruct containers; [|discriminate].
    unfold clock_reads. simpl. rewrite Nat.add_0_r. apply runs_ret. }
  rewrite (fetch_running_fetched w containers (ListContainers_ID_length _ _ Hlist)).
  eapply runs_bind_silent; [apply runs_ret|]. cbv beta.
  apply for_range_emitContainer_runs.
Qed.

Lemma collectContainerMetrics_failed e k :
  ListContainers w = Returned (Err e) →
  runs (collectContainerMetrics c) k () k [].
Proof.
  intros Hlist. unfold collectContainerMetrics. simpl client. rewrite Hlist.
  eapply runs_bind_silent; apply runs_ret.
Qed.

Lemma Collect_runs k' out :
  runs (collectContainerMetrics c) 1 () k' out →
  scrape c = Returned (build_metric w cfg :: out ++ engine_metrics w cfg
                         ++ [duration_metric w cfg k']).
Proof.
  intros Hcont.
  assert (runs (Collect c) 0 () (S k')
            (build_metric w cfg :: out ++ engine_metrics w cfg
               ++ [duration_metric w cfg k'])) as Hruns.
  { unfold Collect. eapply runs_bind_silent; [reflexivity|].
    apply runs_emit_then; [reflexivity|].
    eapply (runs_bind _ _ _ ()); [exact Hcont|].
    eapply (runs_bind _ _ _ ()); [apply collectEngineMetrics_runs|].
    eapply runs_bind_silent; [apply runs_Since|].
    apply runs_emit. reflexivity. }
  unfold scrape. rewrite Hruns. reflexivity.
Qed.

(** A scrape whose listing went through. *)
Lemma scrape_listed containers :
  ListContainers w = Returned (Ok containers) →
  scrape c = Returned (build_metric w cfg :: container_series w cfg containers
                         ++ engine_metrics w cfg
                         ++ [duration_metric w cfg (1 + clock_reads containers)]).
Proof.
  intros Hlist. apply Collect_runs, collectContainerMetrics_listed, Hlist.
Qed.

(** A scrape whose listing failed. *)
Lemma scrape_listing_failed e :
  ListContainers w = Returned (Err e) →
  scrape c = Returned (build_metric w cfg :: engine_metrics w cfg
                         ++ [duration_metric w cfg 1]).
Proof.
  intros Hlist.
  apply (Collect_runs 1 []), (collectContainerMetrics_failed e), Hlist.
Qed.

(** A scrape returns a metric set whether the listing fails or not, as
    long as the identifiers handed out by the runtime are long enough to
    be cut to twelve bytes. *)
Lemma scrape_always_returns :
  (∀ containers, cli_ContainerList w = Ok containers → long_ids w containers) →
  ∃ out, scrape c = Returned out.
Proof.
  intros Hlong. destruct (cli_ContainerList w) as [containers|e] eqn:Hlist.
  - eexists. apply scrape_listed. unfold ListContainers. rewrite Hlist.
    rewrite (ListContainers_loop_detail w containers [] (Hlong _ eq_refl)).
    reflexivity.
  - eexists. eapply scrape_listing_failed, ListContainers_Err, Hlist.
Qed.

End Scrape.

(** ** Which metrics a scrape holds *)

(** [H : d ∈ l] for a list [l] of descriptors none of which is [d]. *)
Ltac absurd_desc H :=
  simpl in H;
  repeat (apply elem_of_cons in H as [H|H]; [discriminate H|]);
  apply elem_of_nil in H; destruct H.

Lemma elem_of_concat_fmap {A B} (f : A → list B) (l : list A) (y : B) :
  y ∈ concat (f <$> l) → ∃ x, x ∈ l ∧ y ∈ f x.
Proof.
  induction l as [|x l IH]; simpl; intros H; [inversion H|].
  apply elem_of_app in H as [H|H].
  - exists x. split; [left|exact H].
  - destruct (IH H) as (x' & Hx' & Hy). exists x'. split; [right|]; assumption.
Qed.

(** Chooses an element in a goal [x = a ∨ (x = b ∨ ...)], trying the
    next one when the rest of the proof fails on the choice. *)
Ltac pick_metric := reflexivity + (left; pick_metric) + (right; pick_metric).

Section Series.

Variable w : World.
Variable cfg : Config.t.

Let c : Collector := NewCollector w cfg.

Lemma interface_metrics_inv cont entry m :
  m ∈ interface_metrics w cfg cont entry →
  for_container cont m ∧ desc m ∈ network_descs c.
Proof.
  unfold interface_metrics, network_descs. intros H.
  apply elem_of_cons in H as [->|H]; [|apply elem_of_cons in H as [->|H]];
    [split; [reflexivity|rewrite !elem_of_cons; pick_metric].. | inversion H].
Qed.

Lemma resource_metrics_inv cont stats m :
  m ∈ resource_metrics w cfg cont stats →
  for_container cont m ∧ desc m ∈ resource_descs c.
Proof.
  unfold resource_metrics, resource_descs, sample_descs. intros H.
  apply elem_of_app in H as [H|H]; [|apply elem_of_app in H as [H|H]].
  - repeat (apply elem_of_cons in H as [->|H];
            [split; [reflexivity|rewrite elem_of_app, !elem_of_cons; pick_metric]|]).
    inversion H.
  - apply elem_of_concat_fmap in H as (entry & _ & Hm).
    apply interface_metrics_inv in Hm as [Hfor Hdesc].
    split; [exact Hfor|]. apply elem_of_app. right. exact Hdesc.
  - repeat (apply elem_of_cons in H as [->|H];
            [split; [reflexivity|rewrite elem_of_app, !elem_of_cons; pick_metric]|]).
    inversion H.
Qed.

(** The metrics of one turn of the emission loop, one by one. *)
Lemma container_metrics_inv statsMap cont now m :
  m ∈ container_metrics w cfg statsMap cont now →
  m = info_metric w cfg cont ∨ m = state_metric w cfg cont
  ∨ m = uptime_metric w cfg cont now
  ∨ (time.IsZero (ContainerInfo.Created cont) = false ∧ m = created_metric w cfg cont)
  ∨ (time.IsZero (ContainerInfo.Started cont) = false ∧ m = started_metric w cfg cont)
  ∨ m = restart_metric w cfg cont ∨ m = health_metric w cfg cont
  ∨ m = exit_metric w cfg cont ∨ m = oom_metric w cfg cont
  ∨ ∃ stats, statsMap !! ContainerInfo.ID cont = Some stats
             ∧ m ∈ resource_metrics w cfg cont stats.
Proof.
  unfold container_metrics. intros H.
  repeat (apply elem_of_cons in H as [->|H]; [pick_metric|]).
  apply elem_of_app in H as [H|H].
  { destruct (time.IsZero (ContainerInfo.Created cont)); [inversion H|].
    apply elem_of_cons in H as [->|H]; [|inversion H].
    do 3 right. left. split; reflexivity. }
  apply elem_of_app in H as [H|H].
  { destruct (time.IsZero (ContainerInfo.Started cont)); [inversion H|].
    apply elem_of_cons in H as [->|H]; [|inversion H].
    do 4 right. left. split; reflexivity. }
  repeat (apply elem_of_cons in H as [->|H]; [pick_metric|]).
  destruct (statsMap !! ContainerInfo.ID cont) as [stats|]; [|inversion H].
  do 9 right. exists stats. split; [reflexivity|exact H].
Qed.

Lemma container_metrics_for statsMap cont now m :
  m ∈ container_metrics w cfg statsMap cont now →
  for_container cont m ∧ desc m ∈ container_descs c.
Proof.
  intros H. apply container_metrics_inv in H. unfold container_descs, always_descs.
  destruct H as [->|[->|[->|[[_ ->]|[[_ ->]|[->|[->|[->|[->|(stats & _ & H)]]]]]]]]];
    try (split; [reflexivity|rewrite !elem_of_app, !elem_of_cons; pick_metric]).
  apply resource_metrics_inv in H as [Hfor Hdesc].
  split; [exact Hfor|]. rewrite !elem_of_app. right. right. exact Hdesc.
Qed.

(** Every listed container gets the seven unconditional series. *)
Lemma container_metrics_always statsMap cont now d :
  d ∈ always_descs c →
  has_series (container_metrics w cfg statsMap cont now) d cont.
Proof.
  unfold always_descs, has_series, container_metrics. intros Hd.
  repeat (apply elem_of_cons in Hd as [->|Hd];
          [(eexists; split; [rewrite !elem_of_app, !elem_of_cons; pick_metric|]);
           split; reflexivity|]).
  inversion Hd.
Qed.

(** The uptime series of a turn is the one computed from its clock reading. *)
Lemma container_metrics_uptime statsMap cont now m :
  m ∈ container_metrics w cfg statsMap cont now →
  desc m = containerUptime c → m = uptime_metric w cfg cont now.
Proof.
  intros H Hdesc. apply container_metrics_inv in H.
  destruct H as [->|[->|[->|[[_ ->]|[[_ ->]|[->|[->|[->|[->|(stats & _ & H)]]]]]]]]];
    try reflexivity; try (simpl in Hdesc; discriminate Hdesc).
  apply resource_metrics_inv in H as [_ H]. rewrite Hdesc in H. absurd_desc H.
Qed.

(** A created-timestamp series only comes from a non-zero instant. *)
Lemma container_metrics_created statsMap cont now m :
  m ∈ container_metrics w cfg statsMap cont now →
  desc m = containerCreated c →
  time.IsZero (ContainerInfo.Created cont) = false.
Proof.
  intros H Hdesc. apply container_metrics_inv in H.
  destruct H as [->|[->|[->|[[Hz ->]|[[_ ->]|[->|[->|[->|[->|(stats & _ & H)]]]]]]]]];
    try exact Hz; try (simpl in Hdesc; discriminate Hdesc).
  apply resource_metrics_inv in H as [_ H]. rewrite Hdesc in H. absurd_desc H.
Qed.

Lemma container_metrics_started statsMap cont now m :
  m ∈ container_metrics w cfg statsMap cont now →
  desc m = containerStarted c →
  time.IsZero (ContainerInfo.Started cont) = false.
Proof.
  intros H Hdesc. apply container_metrics_inv in H.
  destruct H as [->|[->|[->|[[_ ->]|[[Hz ->]|[->|[->|[->|[->|(stats & _ & H)]]]]]]]]];
    try exact Hz; try (simpl in Hdesc; discriminate Hdesc).
  apply resource_metrics_inv in H as [_ H]. rewrite Hdesc in H. absurd_desc H.
Qed.

(** A resource series only comes from a sample in the map. *)
Lemma container_metrics_resource statsMap cont now m :
  m ∈ container_metrics w cfg statsMap cont now →
  desc m ∈ resource_descs c →
  ∃ stats, statsMap !! ContainerInfo.ID cont = Some stats
           ∧ m ∈ resource_metrics w cfg cont stats.
Proof.
  intros H Hdesc. apply container_metrics_inv in H.
  destruct H as [->|[->|[->|[[_ ->]|[[_ ->]|[->|[->|[->|[->|H]]]]]]]]];
    try exact H; absurd_desc Hdesc.
Qed.

(** With a sample in the map, each single-sample resource series is sent. *)
Lemma container_metrics_sample statsMap cont now stats d :
  statsMap !! ContainerInfo.ID cont = Some stats →
  d ∈ sample_descs c →
  has_series (container_metrics w cfg statsMap cont now) d cont.
Proof.
  unfold sample_descs, has_series, container_metrics, resource_metrics.
  intros -> Hd.
  repeat (apply elem_of_cons in Hd as [->|Hd];
          [(eexists; split; [rewrite !elem_of_app, !elem_of_cons; pick_metric|]);
           split; reflexivity|]).
  inversion Hd.
Qed.

Lemma clock_reads_cons cont rest :
  clock_reads (cont :: rest)
  = (if reads_clock cont then 1 else 0) + clock_reads rest.
Proof.
  unfold clock_reads. rewrite filter_cons.
  destruct (reads_clock cont).
  - rewrite decide_True by reflexivity. reflexivity.
  - rewrite decide_False by discriminate. reflexivity.
Qed.

(** The emission loop sends, for the container at each position, the
    metrics of its turn, computed from the clock reading of that turn. *)
Lemma emitted_app statsMap before cont after k :
  emitted w cfg statsMap (before ++ cont :: after) k
  = emitted w cfg statsMap before k
    ++ container_metrics w cfg statsMap cont (time_Now w (k + clock_reads before))
    ++ emitted w cfg statsMap after (k + clock_reads (before ++ [cont])).
Proof.
  revert k. induction before as [|x before IH]; intros k.
  - cbn [emitted app]. rewrite clock_reads_cons.
    change (clock_reads []) with 0. rewrite Nat.add_0_r.
    destruct (reads_clock cont).
    + replace (k + (1 + 0)) with (S k) by lia. reflexivity.
    + replace (k + (0 + 0)) with k by lia. reflexivity.
  - cbn [emitted app]. rewrite IH, <- app_assoc. rewrite !clock_reads_cons.
    destruct (reads_clock x).
    + replace (k + (1 + clock_reads before)) with (S k + clock_reads before) by lia.
      replace (k + (1 + clock_reads (before ++ [cont])))
        with (S k + clock_reads (before ++ [cont])) by lia.
      reflexivity.
    + reflexivity.
Qed.

Lemma elem_of_emitted statsMap containers k m :
  m ∈ emitted w cfg statsMap containers k →
  ∃ before cont after,
    containers = before ++ cont :: after
    ∧ m ∈ container_metrics w cfg statsMap cont (time_Now w (k + clock_reads before)).
Proof.
  revert k. induction containers as [|x rest IH]; intros k H; [inversion H|].
  cbn [emitted] in H. apply elem_of_app in H as [H|H].
  - exists [], x, rest. split; [reflexivity|].
    change (clock_reads []) with 0. rewrite Nat.add_0_r. exact H.
  - apply IH in H as (before & cont & after & -> & H).
    exists (x :: before), cont, after. split; [reflexivity|].
    rewrite clock_reads_cons. destruct (reads_clock x).
    + replace (k + (1 + clock_reads before)) with (S k + clock_reads before) by lia.
      exact H.
    + exact H.
Qed.

(** A metric of a scrape under a container-scoped descriptor was sent by
    the emission loop. *)
Lemma scrape_container_metric series k m :
  m ∈ build_metric w cfg :: series ++ engine_metrics w cfg ++ [duration_metric w cfg k] →
  desc m ∈ container_descs c →
  m ∈ series.
Proof.
  intros H Hdesc.
  apply elem_of_cons in H as [->|H]; [absurd_desc Hdesc|].
  apply elem_of_app in H as [H|H]; [exact H|].
  apply elem_of_app in H as [H|H].
  - unfold engine_metrics in H. destruct (GetEngineInfo w) as [info|e]; [|inversion H].
    repeat (apply elem_of_cons in H as [->|H]; [absurd_desc Hdesc|]). inversion H.
  - apply elem_of_cons in H as [->|H]; [absurd_desc Hdesc|inversion H].
Qed.

End Series.

(** With distinct identifiers a position in the listing is determined by
    the identifier found there. *)
Lemma NoDup_ids_position (before before' after after' : list ContainerInfo.t)
    (cont cont' : ContainerInfo.t) :
  NoDup (ContainerInfo.ID <$> (before ++ cont :: after)) →
  before ++ cont :: after = before' ++ cont' :: after' →
  ContainerInfo.ID cont = ContainerInfo.ID cont' →
  before = before' ∧ cont = cont'.
Proof.
  revert before'. induction before as [|x before IH]; intros before' Hnd Heq Hid.
  - destruct before' as [|y before']; simpl in Heq.
    + injection Heq as -> _. split; reflexivity.
    + injection Heq as -> ->. exfalso. simpl in Hnd.
      apply NoDup_cons in Hnd as [Hfresh _]. apply Hfresh. rewrite Hid.
      apply list_elem_of_fmap_2. rewrite elem_of_app, elem_of_cons. auto.
  - destruct before' as [|y before']; simpl in Heq.
    + injection Heq as -> <-. exfalso. simpl in Hnd.
      apply NoDup_cons in Hnd as [Hfresh _]. apply Hfresh. rewrite <- Hid.
      apply list_elem_of_fmap_2. rewrite elem_of_app, elem_of_cons. auto.
    + injection Heq as -> Heq. simpl in Hnd. apply NoDup_cons in Hnd as [_ Hnd].
      destruct (IH before' Hnd Heq Hid) as [-> ->]. split; reflexivity.
Qed.

(** ** Facts about one container of a scrape *)

Section PerContainer.

Variable w : World.
Variable cfg : Config.t.

Let c : Collector := NewCollector w cfg.

Lemma scrape_listed_scrape containers :
  ListContainers w = Returned (Ok containers) →
  scrape c = Returned (listed_scrape w cfg containers).
Proof. apply scrape_listed. Qed.

Lemma elem_of_listed_scrape_series containers m :
  m ∈ container_series w cfg containers → m ∈ listed_scrape w cfg containers.
Proof.
  intros H. unfold listed_scrape. apply elem_of_cons. right.
  apply elem_of_app. left. exact H.
Qed.

(** The turn of the container at a given position is part of the scrape. *)
Lemma turn_in_listed_scrape before cont after m :
  m ∈ container_metrics w cfg (scrape_statsMap w (before ++ cont :: after)) cont
        (time_Now w (1 + clock_reads before)) →
  m ∈ listed_scrape w cfg (before ++ cont :: after).
Proof.
  intros H. apply elem_of_listed_scrape_series.
  unfold container_series. rewrite emitted_app, !elem_of_app. right. left. exact H.
Qed.

(** With distinct identifiers, what a scrape holds for a container under a
    container-scoped descriptor was sent in that container's own turn. *)
Lemma listed_scrape_turn before cont after m :
  NoDup (ContainerInfo.ID <$> (before ++ cont :: after)) →
  m ∈ listed_scrape w cfg (before ++ cont :: after) →
  desc m ∈ container_descs c →
  for_container cont m →
  m ∈ container_metrics w cfg (scrape_statsMap w (before ++ cont :: after)) cont
        (time_Now w (1 + clock_reads before)).
Proof.
  intros Hnd Hm Hdesc Hfor.
  apply scrape_container_metric in Hm; [|exact Hdesc].
  apply elem_of_emitted in Hm as (before' & cont' & after' & Heq & Hm).
  destruct (container_metrics_for _ _ _ _ _ _ Hm) as [Hfor' _].
  unfold for_container in Hfor, Hfor'. rewrite Hfor in Hfor'. injection Hfor' as Hid.
  destruct (NoDup_ids_position _ _ _ _ _ _ Hnd Heq Hid) as [<- <-]. exact Hm.
Qed.

Lemma always_series containers cont d :
  cont ∈ containers → d ∈ always_descs c →
  has_series (listed_scrape w cfg containers) d cont.
Proof.
  intros Hcont Hd. apply list_elem_of_split in Hcont as (before & after & ->).
  destruct (container_metrics_always w cfg
              (scrape_statsMap w (before ++ cont :: after)) cont
              (time_Now w (1 + clock_reads before)) d Hd) as (m & Hm & Hdesc & Hfor).
  exists m. split; [|split; assumption]. apply turn_in_listed_scrape, Hm.
Qed.

Lemma created_series containers cont :
  NoDup (ContainerInfo.ID <$> containers) → cont ∈ containers →
  has_series (listed_scrape w cfg containers) (containerCreated c) cont
  ↔ time.IsZero (ContainerInfo.Created cont) = false.
Proof.
  intros Hnd Hcont. apply list_elem_of_split in Hcont as (before & after & ->).
  split.
  - intros (m & Hm & Hdesc & Hfor).
    apply (listed_scrape_turn _ _ _ _ Hnd) in Hm; [|rewrite Hdesc|exact Hfor].
    + eapply container_metrics_created; eassumption.
    + unfold container_descs. rewrite !elem_of_app, !elem_of_cons. auto.
  - intros Hz. exists (created_metric w cfg cont).
    split; [|split; reflexivity]. apply turn_in_listed_scrape.
    unfold container_metrics. rewrite Hz, !elem_of_app, !elem_of_cons. auto.
Qed.

Lemma started_series containers cont :
  NoDup (ContainerInfo.ID <$> containers) → cont ∈ containers →
  has_series (listed_scrape w cfg containers) (containerStarted c) cont
  ↔ time.IsZero (ContainerInfo.Started cont) = false.
Proof.
  intros Hnd Hcont. apply list_elem_of_split in Hcont as (before & after & ->).
  split.
  - intros (m & Hm & Hdesc & Hfor).
    apply (listed_scrape_turn _ _ _ _ Hnd) in Hm; [|rewrite Hdesc|exact Hfor].
    + eapply container_metrics_started; eassumption.
    + unfold container_descs. rewrite !elem_of_app, !elem_of_cons. auto.
  - intros Hz. exists (started_metric w cfg cont).
    split; [|split; reflexivity]. apply turn_in_listed_scrape.
    unfold container_metrics. rewrite Hz, !elem_of_app, !elem_of_cons. auto 10.
Qed.

(** The map consulted by the emission loop holds, for each listed
    container, the sample fetched for it. *)
Lemma scrape_statsMap_fetched containers cont :
  ListContainers w = Returned (Ok containers) →
  NoDup (ContainerInfo.ID <$> containers) →
  channel_delivers w →
  cont ∈ containers →
  scrape_statsMap w containers !! ContainerInfo.ID cont = fetched w cont.
Proof.
  intros Hlist Hnd Hdel Hcont. unfold scrape_statsMap.
  apply (statsMap_lookup w containers); try assumption.
  - eapply ListContainers_ID_length, Hlist.
  - apply Hdel.
Qed.

(** A resource metric of a container comes from the sample fetched for it. *)
Lemma resource_series_source containers cont m :
  ListContainers w = Returned (Ok containers) →
  NoDup (ContainerInfo.ID <$> containers) →
  channel_delivers w →
  cont ∈ containers →
  m ∈ listed_scrape w cfg containers →
  desc m ∈ resource_descs c →
  for_container cont m →
  ∃ stats, fetched w cont = Some stats ∧ m ∈ resource_metrics w cfg cont stats.
Proof.
  intros Hlist Hnd Hdel Hcont Hm Hdesc Hfor.
  pose proof (scrape_statsMap_fetched _ _ Hlist Hnd Hdel Hcont) as Hmap.
  apply list_elem_of_split in Hcont as (before & after & ->).
  apply (listed_scrape_turn _ _ _ _ Hnd) in Hm; [|..|exact Hfor].
  - apply container_metrics_resource in Hm as (stats & Hlook & Hm); [|exact Hdesc].
    exists stats. split; [congruence|exact Hm].
  - unfold container_descs. rewrite !elem_of_app. auto.
Qed.

Lemma sample_series containers cont d :
  ListContainers w = Returned (Ok containers) →
  NoDup (ContainerInfo.ID <$> containers) →
  channel_delivers w →
  cont ∈ containers →
  d ∈ sample_descs c →
  has_series (listed_scrape w cfg containers) d cont ↔ is_Some (fetched w cont).
Proof.
  intros Hlist Hnd Hdel Hcont Hd. split.
  - intros (m & Hm & Hdesc & Hfor).
    destruct (resource_series_source _ _ _ Hlist Hnd Hdel Hcont Hm) as (stats & Hf & _);
      [rewrite Hdesc; unfold resource_descs; apply elem_of_app; auto|exact Hfor|].
    rewrite Hf. eexists. reflexivity.
  - intros [stats Hf].
    pose proof (scrape_statsMap_fetched _ _ Hlist Hnd Hdel Hcont) as Hmap.
    rewrite Hf in Hmap.
    apply list_elem_of_split in Hcont as (before & after & ->).
    destruct (container_metrics_sample w cfg _ cont
                (time_Now w (1 + clock_reads before)) stats d Hmap Hd)
      as (m & Hm & Hdesc & Hfor).
    exists m. split; [|split; assumption]. apply turn_in_listed_scrape, Hm.
Qed.

End PerContainer.

(** * The claims *)

(** ** Lifecycle and health codes *)

(** C5: the lifecycle code is a total function of the state string:
    running, paused, restarting, exited, dead and created map to 1..6 as
    the table of the specification says, every other string maps to 0,
    and every result lies in {0,...,6}. *)
Theorem stateToCode_total (state : string) :
  stateToCode state = code_of lifecycle_codes 0 state
  ∧ stateToCode state ∈ [0; 1; 2; 3; 4; 5; 6]%Z
  ∧ (state ∈ lifecycle_codes.*1 ∨ stateToCode state = 0%Z)
  ∧ stateToCode "running" = 1%Z ∧ stateToCode "paused" = 2%Z
  ∧ stateToCode "restarting" = 3%Z ∧ stateToCode "exited" = 4%Z
  ∧ stateToCode "dead" = 5%Z ∧ stateToCode "created" = 6%Z.
Proof.
  split; [|split; [|split; [|repeat split]]].
  - unfold stateToCode, lifecycle_codes, code_of. repeat case_decide; reflexivity.
  - unfold stateToCode. repeat case_decide; set_solver.
  - unfold stateToCode. repeat case_decide; subst; simpl; set_solver.
Qed.

(** C6: the health code is total: healthy is 1, unhealthy is 0, starting
    is 2, and "none", the empty string and every other string are -1. *)
Theorem healthToCode_total (health : string) :
  healthToCode health = code_of health_codes (-1) health
  ∧ (health ∈ health_codes.*1 ∨ healthToCode health = (-1)%Z)
  ∧ healthToCode "healthy" = 1%Z ∧ healthToCode "unhealthy" = 0%Z
  ∧ healthToCode "starting" = 2%Z ∧ healthToCode "none" = (-1)%Z
  ∧ healthToCode "" = (-1)%Z.
Proof.
  split; [|split; [|repeat split]].
  - unfold healthToCode, health_codes, code_of. repeat case_decide; reflexivity.
  - unfold healthToCode. repeat case_decide; subst; simpl; set_solver.
Qed.

(** ** CPU and memory percentages *)

Lemma calculateCPUPercent_scenario :
  calculateCPUPercent sample_stats = 40%float.
Proof. vm_compute. reflexivity. Qed.

(** With no progress of the usage counter the percentage is 0. *)
Lemma calculateCPUPercent_no_progress (stats : StatsResponse.t) :
  CPUStats.TotalUsage (StatsResponse.CPUStats stats)
  = CPUStats.TotalUsage (StatsResponse.PreCPUStats stats) →
  calculateCPUPercent stats = 0%float.
Proof.
  intros Heq. unfold calculateCPUPercent. rewrite Heq, Z.sub_diag.
  change (float64_of_Z (wrap64 0)) with 0%float.
  change (0 <? 0)%float with false. rewrite andb_false_r. reflexivity.
Qed.

(** C3: on a reset of the usage counter (it went from 200 to 100, a
    difference of -100, while the system counter advanced by 1000) the
    code does not return 0: the unsigned subtraction wraps and the
    percentage is 0x1.999999999999ap+60, about 1.8e18. *)
Theorem calculateCPUPercent_counter_reset :
  (CPUStats.TotalUsage (StatsResponse.CPUStats reset_stats)
   - CPUStats.TotalUsage (StatsResponse.PreCPUStats reset_stats) = -100)%Z
  ∧ calculateCPUPercent reset_stats = 0x1.999999999999ap+60%float
  ∧ (0 <? calculateCPUPercent reset_stats)%float = true.
Proof. split; [reflexivity|]. split; vm_compute; reflexivity. Qed.

(** C7: the memory percentage of a sample is usage / limit * 100 when
    the limit is positive and 0 otherwise (so 0 for limit 0); 512 MiB of
    1024 MiB give exactly 50. *)
Theorem GetContainerStats_MemoryPercent w containerID name sample :
  GetContainerStats w containerID name = Returned (Ok sample) →
  ContainerStats.MemoryPercent sample
  = (if (0 <? ContainerStats.MemoryLimit sample)%Z
     then (float64_of_Z (ContainerStats.MemoryUsage sample)
           / float64_of_Z (ContainerStats.MemoryLimit sample) * 100)%float
     else 0%float)
  ∧ (ContainerStats.MemoryLimit sample = 0%Z →
     ContainerStats.MemoryPercent sample = 0%float)
  ∧ (ContainerStats.MemoryUsage sample = (512 * MiB)%Z →
     ContainerStats.MemoryLimit sample = (1024 * MiB)%Z →
     ContainerStats.MemoryPercent sample = 50%float).
Proof.
  unfold GetContainerStats.
  destruct (cli_ContainerStats w containerID) as [e|e|e|stats]; try discriminate.
  destruct (slice_to containerID 12) as [short|]; [|discriminate].
  destruct (fold_left add_network _ _) as [[nets rx] tx].
  destruct (fold_left add_blkio _ _) as [rd wr].
  intros [= <-]. simpl. split; [reflexivity|]. split.
  - intros ->. reflexivity.
  - intros -> ->. vm_compute. reflexivity.
Qed.

Lemma GetContainerStats_MemoryPercent_witness :
  ∃ sample,
    GetContainerStats fleet "4f1c0a9b7e2d" "web" = Returned (Ok sample)
    ∧ ContainerStats.MemoryPercent sample = 50%float.
Proof.
  eexists. split; [vm_compute; reflexivity|].
  eapply (GetContainerStats_MemoryPercent fleet "4f1c0a9b7e2d" "web");
    [vm_compute; reflexivity | reflexivity | reflexivity].
Defined.

(** ** The listing *)



(** ** Facts about the sample worlds *)

Lemma fleet_lists : ListContainers fleet = Returned (Ok fleet_snapshots).
Proof. vm_compute. reflexivity. Qed.

Lemma fleet_ids_distinct : NoDup (ContainerInfo.ID <$> fleet_snapshots).
Proof. apply (bool_decide_unpack _). vm_compute. exact I. Qed.

Lemma fleet_channel_delivers : channel_delivers fleet.
Proof. intros posted. apply reverse_Permutation. Qed.

Lemma fleet_scrape :
  scrape (NewCollector fleet ndocker)
  = Returned (listed_scrape fleet ndocker fleet_snapshots).
Proof. apply scrape_listed_scrape, fleet_lists. Qed.

(** ** A failed listing *)

(** C1, as the code has it: when the list call fails, [Collect] still
    returns; it sends build-info, then the engine series if the engine
    lookup succeeds, then scrape-duration, and nothing container-scoped.
    Only when the engine lookup fails too are build-info and
    scrape-duration all there is. *)
Theorem scrape_without_inventory w cfg e :
  cli_ContainerList w = Err e →
  ∃ out,
    scrape (NewCollector w cfg) = Returned out
    ∧ out = build_metric w cfg :: engine_metrics w cfg ++ [duration_metric w cfg 1]
    ∧ Forall (λ m, desc m ∉ container_descs (NewCollector w cfg)) out
    ∧ (∀ e', cli_Info w = Err e' →
             out = [build_metric w cfg; duration_metric w cfg 1]).
Proof.
  intros Hlist. eexists. split; [|split; [reflexivity|split]].
  - eapply scrape_listing_failed, ListContainers_Err, Hlist.
  - apply Forall_cons. split; [intros H; absurd_desc H|].
    apply Forall_app. split.
    + unfold engine_metrics. destruct (GetEngineInfo w) as [info|e']; [|constructor].
      repeat (apply Forall_cons; split; [intros H; absurd_desc H|]). constructor.
    + apply Forall_cons. split; [intros H; absurd_desc H|constructor].
  - intros e' Hinfo. unfold engine_metrics, GetEngineInfo. rewrite Hinfo. reflexivity.
Qed.

Lemma scrape_without_inventory_witness :
  cli_ContainerList outage = Err TransportError
  ∧ ∃ out, scrape (NewCollector outage ndocker) = Returned out ∧ length out = 7.
Proof.
  split; [reflexivity|].
  destruct (scrape_without_inventory outage ndocker TransportError eq_refl)
    as (out & Hout & -> & _).
  eexists. split; [exact Hout|reflexivity].
Defined.

(** C1, as stated, fails: in [outage] the listing fails and the scrape
    still carries the engine series. *)
Lemma failed_listing_keeps_engine_metrics :
  ¬ failed_listing_leaves_fixed_metrics outage ndocker.
Proof.
  intros H.
  specialize (H TransportError _ eq_refl
                (scrape_listing_failed outage ndocker TransportError eq_refl)).
  apply Forall_cons in H as [_ H]. apply Forall_cons in H as [[H|H] _];
    simpl in H; discriminate H.
Qed.

(** ** Series per container *)

(** C2, as the code has it: with distinct identifiers, every listed
    container gets the info, state, uptime, restart-count, health,
    exit-code and oom series; it gets the created (started) timestamp
    series exactly when that instant is not zero; it gets the CPU, memory
    and block-IO series exactly when its own fetch produced a sample, and
    network series only then.  Nothing here depends on the fetches of
    the other containers. *)
Theorem series_of_listed_container w cfg containers cont :
  ListContainers w = Returned (Ok containers) →
  NoDup (ContainerInfo.ID <$> containers) →
  channel_delivers w →
  cont ∈ containers →
  ∃ out,
    scrape (NewCollector w cfg) = Returned out
    ∧ (∀ d, d ∈ always_descs (NewCollector w cfg) → has_series out d cont)
    ∧ (has_series out (containerCreated (NewCollector w cfg)) cont
       ↔ time.IsZero (ContainerInfo.Created cont) = false)
    ∧ (has_series out (containerStarted (NewCollector w cfg)) cont
       ↔ time.IsZero (ContainerInfo.Started cont) = false)
    ∧ (∀ d, d ∈ sample_descs (NewCollector w cfg) →
            (has_series out d cont ↔ is_Some (fetched w cont)))
    ∧ (∀ d, d ∈ network_descs (NewCollector w cfg) →
            has_series out d cont → is_Some (fetched w cont)).
Proof.
  intros Hlist Hnd Hdel Hcont. exists (listed_scrape w cfg containers).
  split; [apply scrape_listed_scrape, Hlist|].
  split; [intros d; apply always_series, Hcont|].
  split; [apply created_series; assumption|].
  split; [apply started_series; assumption|].
  split; [intros d; apply sample_series; assumption|].
  intros d Hd (m & Hm & Hdesc & Hfor).
  destruct (resource_series_source w cfg _ _ _ Hlist Hnd Hdel Hcont Hm) as (stats & Hf & _);
    [rewrite Hdesc; unfold resource_descs; apply elem_of_app; auto|exact Hfor|].
  rewrite Hf. eexists. reflexivity.
Qed.

(** Three running containers, the fetch of [db] timing out: all three
    keep their state series, [web] and [cache] have a CPU series, [db]
    has none. *)
Lemma series_of_listed_container_witness :
  ∃ out,
    scrape (NewCollector fleet ndocker) = Returned out
    ∧ has_series out (containerState (NewCollector fleet ndocker)) web
    ∧ has_series out (containerState (NewCollector fleet ndocker)) db
    ∧ has_series out (containerState (NewCollector fleet ndocker)) cache
    ∧ has_series out (containerCPUPercent (NewCollector fleet ndocker)) web
    ∧ ¬ has_series out (containerCPUPercent (NewCollector fleet ndocker)) db
    ∧ has_series out (containerCPUPercent (NewCollector fleet ndocker)) cache.
Proof.
  exists (listed_scrape fleet ndocker fleet_snapshots).
  assert (∀ cont, cont ∈ fleet_snapshots →
            scrape (NewCollector fleet ndocker)
            = Returned (listed_scrape fleet ndocker fleet_snapshots)
            ∧ has_series (listed_scrape fleet ndocker fleet_snapshots)
                (containerState (NewCollector fleet ndocker)) cont
            ∧ (has_series (listed_scrape fleet ndocker fleet_snapshots)
                 (containerCPUPercent (NewCollector fleet ndocker)) cont
               ↔ is_Some (fetched fleet cont))) as Hall.
  { intros cont Hcont.
    destruct (series_of_listed_container fleet ndocker fleet_snapshots cont
                fleet_lists fleet_ids_distinct fleet_channel_delivers Hcont)
      as (out & Hout & Halways & _ & _ & Hsample & _).
    rewrite fleet_scrape in Hout. injection Hout as <-.
    split; [exact fleet_scrape|]. split.
    - apply Halways. unfold always_descs. rewrite !elem_of_cons. auto.
    - apply Hsample. unfold sample_descs. rewrite !elem_of_cons. auto. }
  destruct (Hall web) as (Hout & Hstate_web & Hcpu_web);
    [unfold fleet_snapshots; rewrite !elem_of_cons; auto|].
  destruct (Hall db) as (_ & Hstate_db & Hcpu_db);
    [unfold fleet_snapshots; rewrite !elem_of_cons; auto|].
  destruct (Hall cache) as (_ & Hstate_cache & Hcpu_cache);
    [unfold fleet_snapshots; rewrite !elem_of_cons; auto|].
  split; [exact Hout|]. do 3 (split; [assumption|]). split; [|split].
  - apply Hcpu_web. vm_compute. eexists. reflexivity.
  - intros H. apply Hcpu_db in H. vm_compute in H. destruct H as [stats H].
    discriminate H.
  - apply Hcpu_cache. vm_compute. eexists. reflexivity.
Defined.

(** C2, as stated, fails: [job] is listed in [fleet] and has no timestamp
    series, its instants being zero. *)
Lemma timestamps_not_always_emitted :
  ¬ timestamps_always_emitted fleet ndocker.
Proof.
  intros H.
  destruct (H fleet_snapshots _ job fleet_lists fleet_scrape) as [Hcreated _].
  { unfold fleet_snapshots. rewrite !elem_of_cons. auto. }
  apply (created_series fleet ndocker _ _ fleet_ids_distinct) in Hcreated.
  - discriminate Hcreated.
  - unfold fleet_snapshots. rewrite !elem_of_cons. auto.
Qed.

(** ** Uptime *)

Lemma Sub_nonneg (t u : time.Time) : (u ≤ t)%Z → (0 ≤ time.Sub t u)%Z.
Proof.
  intros Hle. unfold time.Sub, time.minDuration, time.maxDuration.
  destruct (Z.ltb_spec (t - u) (- 2 ^ 63)); [lia|].
  destruct (Z.ltb_spec (2 ^ 63 - 1) (t - u)); lia.
Qed.

(** C4, as the code has it: the uptime series of a listed container is
    sent with the value [now - startedAt] in seconds when the container is
    running and its start instant is not zero, and 0 otherwise, where
    [now] is the clock reading made in that container's own turn of the
    emission loop (a later reading than the one that opens the scrape).
    The duration converted to seconds is not negative when the start
    instant is not later than that reading.  With distinct identifiers
    this is the only uptime series of the container. *)
Theorem uptime_at_emission w cfg before cont after :
  ListContainers w = Returned (Ok (before ++ cont :: after)) →
  ∃ out,
    scrape (NewCollector w cfg) = Returned out
    ∧ mkMetric (containerUptime (NewCollector w cfg)) GaugeValue
        (if ContainerInfo.Running cont && negb (time.IsZero (ContainerInfo.Started cont))
         then time.Seconds
                (time.Sub (time_Now w (1 + clock_reads before)) (ContainerInfo.Started cont))
         else 0%float)
        [ContainerInfo.ID cont; ContainerInfo.Name cont] ∈ out
    ∧ ((ContainerInfo.Started cont ≤ time_Now w (1 + clock_reads before))%Z →
       (0 ≤ time.Sub (time_Now w (1 + clock_reads before)) (ContainerInfo.Started cont))%Z)
    ∧ (NoDup (ContainerInfo.ID <$> (before ++ cont :: after)) →
       ∀ m, m ∈ out →
            desc m = containerUptime (NewCollector w cfg) → for_container cont m →
            m = uptime_metric w cfg cont (time_Now w (1 + clock_reads before))).
Proof.
  intros Hlist. exists (listed_scrape w cfg (before ++ cont :: after)).
  split; [apply scrape_listed_scrape, Hlist|]. split; [|split].
  - apply turn_in_listed_scrape. unfold container_metrics.
    rewrite !elem_of_app, !elem_of_cons. left. right. right. left. reflexivity.
  - apply Sub_nonneg.
  - intros Hnd m Hm Hdesc Hfor.
    apply (listed_scrape_turn w cfg _ _ _ _ Hnd) in Hm; [|rewrite Hdesc|exact Hfor].
    + eapply container_metrics_uptime; eassumption.
    + unfold container_descs, always_descs. rewrite !elem_of_app, !elem_of_cons. auto.
Qed.

(** [cache] comes third in [fleet]; two clock readings were made for the
    containers before it. *)
Lemma uptime_at_emission_witness :
  ListContainers fleet = Returned (Ok ([web; db] ++ cache :: [job]))
  ∧ ∃ out,
      scrape (NewCollector fleet ndocker) = Returned out
      ∧ mkMetric (containerUptime (NewCollector fleet ndocker)) GaugeValue (-94)%float
          ["c0ffee123456"; "cache"] ∈ out.
Proof.
  split; [exact fleet_lists|].
  destruct (uptime_at_emission fleet ndocker [web; db] cache [job] fleet_lists)
    as (out & Hout & Hin & _).
  exists out. split; [exact Hout|].
  vm_compute in Hin. vm_compute. exact Hin.
Defined.

(** C4, as stated, fails twice in [fleet]: the uptime of [web] is counted
    from a reading two seconds after the scrape started (52 s, not 50 s),
    and the uptime of [cache], whose start instant is ahead of the clock,
    is negative. *)
Lemma uptime_neither_from_start_nor_positive :
  ¬ uptime_from_scrape_start fleet ndocker
  ∧ ¬ uptime_never_negative fleet ndocker.
Proof.
  split.
  - intros H.
    specialize (H fleet_snapshots _ web
                  (uptime_metric fleet ndocker web (time_Now fleet 1))
                  fleet_lists fleet_scrape).
    assert (value (uptime_metric fleet ndocker web (time_Now fleet 1))
            = uptime_at web (time_Now fleet 0)) as Hvalue.
    { apply H; [| |reflexivity..].
      - unfold fleet_snapshots. rewrite !elem_of_cons. auto.
      - apply (turn_in_listed_scrape fleet ndocker [] web [db; cache; job]).
        unfold container_metrics. rewrite !elem_of_app, !elem_of_cons. auto. }
    apply (f_equal (λ v, (v =? 52)%float)) in Hvalue. vm_compute in Hvalue.
    discriminate Hvalue.
  - intros H.
    specialize (H _ (uptime_metric fleet ndocker cache (time_Now fleet 3)) fleet_scrape).
    assert ((value (uptime_metric fleet ndocker cache (time_Now fleet 3)) <? 0)%float
            = false) as Hvalue.
    { apply H; [|reflexivity].
      apply (turn_in_listed_scrape fleet ndocker [web; db] cache [job]).
      unfold container_metrics. rewrite !elem_of_app, !elem_of_cons. auto. }
    vm_compute in Hvalue. discriminate Hvalue.
Qed.

(** ** Samples *)

(** C9: with distinct identifiers, the map the emission loop consults
    holds under a container's identifier exactly the sample fetched for
    that container, if any; the samples posted have pairwise distinct
    identifiers; every resource metric of the container is one of the
    metrics of that single sample; and without a sample the scrape has no
    resource metric for the container at all. *)
Theorem one_sample_per_container w cfg containers cont :
  ListContainers w = Returned (Ok containers) →
  NoDup (ContainerInfo.ID <$> containers) →
  channel_delivers w →
  cont ∈ containers →
  scrape_statsMap w containers !! ContainerInfo.ID cont = fetched w cont
  ∧ fetch_running w containers = Returned (omap (fetched w) containers)
  ∧ NoDup (ContainerStats.ID <$> omap (fetched w) containers)
  ∧ ∃ out,
      scrape (NewCollector w cfg) = Returned out
      ∧ (∀ m, m ∈ out →
              desc m ∈ resource_descs (NewCollector w cfg) → for_container cont m →
              ∃ stats, fetched w cont = Some stats
                       ∧ m ∈ resource_metrics w cfg cont stats)
      ∧ (fetched w cont = None →
         ∀ m, m ∈ out →
              desc m ∈ resource_descs (NewCollector w cfg) → ¬ for_container cont m).
Proof.
  intros Hlist Hnd Hdel Hcont.
  pose proof (ListContainers_ID_length _ _ Hlist) as Hlen.
  split; [apply scrape_statsMap_fetched; assumption|].
  split; [apply fetch_running_fetched, Hlen|].
  split; [exact (sublist_NoDup _ _ Hnd (fetched_ids_sublist w _ Hlen))|].
  exists (listed_scrape w cfg containers).
  split; [apply scrape_listed_scrape, Hlist|]. split.
  - intros m Hm Hdesc Hfor. eapply resource_series_source; eassumption.
  - intros Hnone m Hm Hdesc Hfor.
    destruct (resource_series_source w cfg _ _ _ Hlist Hnd Hdel Hcont Hm Hdesc Hfor)
      as (stats & Hf & _).
    congruence.
Qed.

(** In [fleet] the fetch for [db] timed out: no sample under its
    identifier, and no resource metric for it. *)
Lemma one_sample_per_container_witness :
  scrape_statsMap fleet fleet_snapshots !! "9a3b5c7d1e2f" = None
  ∧ ∃ out,
      scrape (NewCollector fleet ndocker) = Returned out
      ∧ ∀ m, m ∈ out →
             desc m ∈ resource_descs (NewCollector fleet ndocker) →
             ¬ for_container db m.
Proof.
  destruct (one_sample_per_container fleet ndocker fleet_snapshots db
              fleet_lists fleet_ids_distinct fleet_channel_delivers)
    as (Hmap & _ & _ & out & Hout & _ & Hnone).
  { unfold fleet_snapshots. rewrite !elem_of_cons. auto. }
  split; [exact Hmap|].
  exists out. split; [exact Hout|]. apply Hnone. vm_compute. reflexivity.
Defined.

(** ** Zero timestamps *)

(** C10: the turn of the emission loop for a listed container whose
    created (started) instant is the zero instant sends no created
    (started) timestamp metric, and sends the info, state, uptime,
    restart-count, health, exit-code and oom metrics all the same; these
    all reach the scrape.  With distinct identifiers, the scrape then has
    no created (started) timestamp series for that container at all. *)
Theorem zero_timestamp_not_emitted w cfg before cont after :
  ListContainers w = Returned (Ok (before ++ cont :: after)) →
  ∃ out turn,
    scrape (NewCollector w cfg) = Returned out
    ∧ runs (emitContainer (NewCollector w cfg)
              (scrape_statsMap w (before ++ cont :: after)) cont)
        (1 + clock_reads before) ()
        (if reads_clock cont then S (1 + clock_reads before) else 1 + clock_reads before)
        turn
    ∧ (∀ m, m ∈ turn → m ∈ out)
    ∧ (time.IsZero (ContainerInfo.Created cont) = true →
       ∀ m, m ∈ turn → desc m ≠ containerCreated (NewCollector w cfg))
    ∧ (time.IsZero (ContainerInfo.Started cont) = true →
       ∀ m, m ∈ turn → desc m ≠ containerStarted (NewCollector w cfg))
    ∧ (∀ d, d ∈ always_descs (NewCollector w cfg) → has_series turn d cont)
    ∧ (NoDup (ContainerInfo.ID <$> (before ++ cont :: after)) →
       (time.IsZero (ContainerInfo.Created cont) = true →
        ¬ has_series out (containerCreated (NewCollector w cfg)) cont)
       ∧ (time.IsZero (ContainerInfo.Started cont) = true →
          ¬ has_series out (containerStarted (NewCollector w cfg)) cont)).
Proof.
  intros Hlist.
  exists (listed_scrape w cfg (before ++ cont :: after)),
         (container_metrics w cfg (scrape_statsMap w (before ++ cont :: after)) cont
            (time_Now w (1 + clock_reads before))).
  split; [apply scrape_listed_scrape, Hlist|].
  split; [apply emitContainer_runs|].
  split; [intros m; apply turn_in_listed_scrape|].
  split; [intros Hz m Hm Hdesc;
          pose proof (container_metrics_created _ _ _ _ _ _ Hm Hdesc); congruence|].
  split; [intros Hz m Hm Hdesc;
          pose proof (container_metrics_started _ _ _ _ _ _ Hm Hdesc); congruence|].
  split; [intros d; apply container_metrics_always|].
  intros Hnd.
  assert (cont ∈ before ++ cont :: after) as Hcont
    by (rewrite elem_of_app, elem_of_cons; auto).
  split; intros Hz H.
  - apply created_series in H; [congruence|assumption..].
  - apply started_series in H; [congruence|assumption..].
Qed.

(** [job], last in [fleet], has the zero instant for both timestamps. *)
Lemma zero_timestamp_not_emitted_witness :
  ListContainers fleet = Returned (Ok ([web; db; cache] ++ job :: []))
  ∧ ∃ out,
      scrape (NewCollector fleet ndocker) = Returned out
      ∧ ¬ has_series out (containerCreated (NewCollector fleet ndocker)) job
      ∧ ¬ has_series out (containerStarted (NewCollector fleet ndocker)) job
      ∧ has_series out (containerInfo (NewCollector fleet ndocker)) job.
Proof.
  split; [exact fleet_lists|].
  destruct (zero_timestamp_not_emitted fleet ndocker [web; db; cache] job []
              fleet_lists)
    as (out & turn & Hout & _ & Hsub & _ & _ & Halways & Hlabels).
  destruct (Hlabels fleet_ids_distinct) as [Hcreated Hstarted].
  exists out. split; [exact Hout|]. split; [apply Hcreated; reflexivity|].
  split; [apply Hstarted; reflexivity|].
  destruct (Halways (containerInfo (NewCollector fleet ndocker)))
    as (m & Hm & Hdesc & Hfor).
  { unfold always_descs. rewrite !elem_of_cons. auto. }
  exists m. split; [apply Hsub, Hm|split; assumption].
Defined.

(** * Further properties of the code *)

(** ** Configuration *)

Lemma TrimPrefix_slash (s : string) :
  String.prefix "/" s = true → "/" +:+ strings_TrimPrefix s "/" = s.
Proof.
  intros Hpre. unfold strings_TrimPrefix. rewrite Hpre.
  destruct s as [|a s]; [discriminate Hpre|].
  cbn [String.prefix] in Hpre.
  destruct (Ascii.ascii_dec _ a) as [<-|]; [|discriminate Hpre].
  cbn [String.length String.substring Nat.sub String.append].
  rewrite Nat.sub_0_r, substring_0_length. reflexivity.
Qed.

Lemma TrimPrefix_no_slash (s : string) :
  String.prefix "/" s = false → strings_TrimPrefix s "/" = s.
Proof. intros Hpre. unfold strings_TrimPrefix. rewrite Hpre. reflexivity. Qed.


(** X2: the metrics path of a parsed configuration is the endpoint flag
    itself when that starts with a slash, and the flag with one slash put
    in front otherwise: at most one leading slash is taken off. *)
Theorem Parse_MetricsPath strings_ToLower Version GitCommit BuildDate GoVersion
    (flags : ParsedConfig.t) :
  match Parse strings_ToLower Version GitCommit BuildDate GoVersion flags false with
  | Exited _ _ => False
  | Parsed cfg _ =>
      MetricsPath cfg
      = (if String.prefix "/" (ParsedConfig.Endpoint flags)
         then ParsedConfig.Endpoint flags
         else "/" +:+ ParsedConfig.Endpoint flags)
  end.
Proof.
  unfold Parse, MetricsPath. simpl.
  destruct (String.prefix "/" (ParsedConfig.Endpoint flags)) eqn:Hpre.
  - apply TrimPrefix_slash, Hpre.
  - rewrite (TrimPrefix_no_slash _ Hpre). reflexivity.
Qed.

Lemma Parse_sample :
  Parse lower_sample "dev" "unknown" "unknown" "go1.23.4" flags_sample false
  = Parsed {| ParsedConfig.Host := "0.0.0.0";
              ParsedConfig.Port := 9324;
              ParsedConfig.Endpoint := "metrics";
              ParsedConfig.Prefix := "ndocker";
              ParsedConfig.LogLevel := "debug";
              ParsedConfig.LogPath := "";
              ParsedConfig.DockerHost := "tcp://localhost:2375";
              ParsedConfig.OutputMode := "all";
              ParsedConfig.Timeout := (2 * time.Second)%Z |} true.
Proof. vm_compute. reflexivity. Qed.

(** ** CPU percentage *)



(** X4: when the runtime reports no online-CPU count, the number of
    per-core counters takes its place: the percentage is the one the same
    reply would give with that number reported; with no per-core counters
    either, it is the percentage for one CPU. *)
Theorem calculateCPUPercent_cpu_count_fallback (stats : StatsResponse.t) :
  CPUStats.OnlineCPUs (StatsResponse.CPUStats stats) = 0%Z →
  calculateCPUPercent stats
  = calculateCPUPercent
      (with_OnlineCPUs stats
         (Z.of_nat (length (CPUStats.PercpuUsage (StatsResponse.CPUStats stats)))))
  ∧ (CPUStats.PercpuUsage (StatsResponse.CPUStats stats) = [] →
     calculateCPUPercent stats = calculateCPUPercent (with_OnlineCPUs stats 1)).
Proof.
  intros Hzero. unfold calculateCPUPercent, with_OnlineCPUs. simpl. rewrite Hzero.
  change (float64_of_Z 0 =? 0)%float with true. cbv iota.
  split.
  - destruct (_ && _); [|reflexivity].
    destruct (float64_of_Z (Z.of_nat _) =? 0)%float eqn:Hcount;
      rewrite ?Hcount; reflexivity.
  - intros ->. destruct (_ && _); reflexivity.
Qed.

Lemma calculateCPUPercent_cpu_count_fallback_witness :
  calculateCPUPercent (with_OnlineCPUs sample_stats 0) = 20%float.
Proof.
  destruct (calculateCPUPercent_cpu_count_fallback (with_OnlineCPUs sample_stats 0)
              eq_refl) as [_ Hone].
  rewrite (Hone eq_refl). vm_compute. reflexivity.
Defined.

(** ** The aggregates of a sample *)

Lemma wrap64_add_l (a b : Z) : wrap64 (wrap64 a + b) = wrap64 (a + b).
Proof. unfold wrap64. apply Zplus_mod_idemp_l. Qed.

Lemma wrap64_small (z : Z) : (0 ≤ z < 2 ^ 64)%Z → wrap64 z = z.
Proof. intros Hz. unfold wrap64. apply Z.mod_small. exact Hz. Qed.

(** The loop over the networks copies every entry and adds up the byte
    counters modulo 2^64. *)
Lemma fold_add_network (l : list (string * NetworkStats.t))
    (nets : gmap string NetworkStats.t) (rx tx : Z) :
  fold_left add_network l (nets, wrap64 rx, wrap64 tx)
  = (fold_left (λ acc entry, <[entry.1 := entry.2]> acc) l nets,
     wrap64 (rx + sum_Z (NetworkStats.RxBytes <$> l.*2)),
     wrap64 (tx + sum_Z (NetworkStats.TxBytes <$> l.*2))).
Proof.
  revert nets rx tx. induction l as [|[iface [r t]] l IH]; intros nets rx tx.
  { simpl. rewrite !Z.add_0_r. reflexivity. }
  cbn [fold_left add_network]. cbn [NetworkStats.RxBytes NetworkStats.TxBytes].
  rewrite !wrap64_add_l, IH. simpl. rewrite !Z.add_assoc. reflexivity.
Qed.

Lemma fold_insert_map_to_list (m : gmap string NetworkStats.t) :
  fold_left (λ acc entry, <[entry.1 := entry.2]> acc) (map_to_list m) ∅ = m.
Proof.
  rewrite <- fold_left_rev_right, rev_alt.
  change (rev_append (map_to_list m) []) with (reverse (map_to_list m)).
  change (fold_right _ ∅ (reverse (map_to_list m)))
    with (list_to_map (reverse (map_to_list m)) : gmap string NetworkStats.t).
  transitivity (list_to_map (map_to_list m) : gmap string NetworkStats.t);
    [|apply list_to_map_to_list].
  apply list_to_map_proper.
  - rewrite fmap_reverse, reverse_Permutation. apply NoDup_fst_map_to_list.
  - apply reverse_Permutation.
Qed.

(** The loop over the block-IO entries adds the values of the read
    entries and of the write entries, modulo 2^64, and skips the rest. *)
Lemma fold_add_blkio (l : list BlkioStatEntry.t) (rd wr : Z) :
  fold_left add_blkio l (wrap64 rd, wrap64 wr)
  = (wrap64 (rd + sum_Z (BlkioStatEntry.Value <$> filter is_read l)),
     wrap64 (wr + sum_Z (BlkioStatEntry.Value <$> filter is_write l))).
Proof.
  revert rd wr. induction l as [|[op v] l IH]; intros rd wr.
  { simpl. rewrite !Z.add_0_r. reflexivity. }
  cbn [fold_left add_blkio BlkioStatEntry.Op BlkioStatEntry.Value].
  rewrite !filter_cons. unfold is_read at 1, is_write at 1. simpl.
  case_bool_decide as Hread.
  - rewrite decide_True by exact Hread.
    rewrite decide_False by (intros [?|?]; destruct Hread; simplify_eq).
    rewrite wrap64_add_l, IH. simpl. rewrite Z.add_assoc. reflexivity.
  - rewrite decide_False by exact Hread. case_bool_decide as Hwrite.
    + rewrite decide_True by exact Hwrite.
      rewrite wrap64_add_l, IH. simpl. rewrite Z.add_assoc. reflexivity.
    + rewrite decide_False by exact Hwrite. apply IH.
Qed.

(** What [GetContainerStats] returns for a decoded reply. *)
Lemma GetContainerStats_decoded w containerID name stats :
  cli_ContainerStats w containerID = StatsDecoded stats →
  12 ≤ String.length containerID →
  ∃ sample,
    GetContainerStats w containerID name = Returned (Ok sample)
    ∧ ContainerStats.ID sample = String.substring 0 12 containerID
    ∧ ContainerStats.Networks sample = StatsResponse.Networks stats
    ∧ ContainerStats.NetworkRxBytes sample
      = wrap64 (sum_Z (NetworkStats.RxBytes <$> (map_to_list (StatsResponse.Networks stats)).*2))
    ∧ ContainerStats.NetworkTxBytes sample
      = wrap64 (sum_Z (NetworkStats.TxBytes <$> (map_to_list (StatsResponse.Networks stats)).*2))
    ∧ ContainerStats.BlockRead sample
      = wrap64 (sum_Z (BlkioStatEntry.Value
                         <$> filter is_read (StatsResponse.IoServiceBytesRecursive stats)))
    ∧ ContainerStats.BlockWrite sample
      = wrap64 (sum_Z (BlkioStatEntry.Value
                         <$> filter is_write (StatsResponse.IoServiceBytesRecursive stats))).
Proof.
  intros Hreply Hlen. unfold GetContainerStats. rewrite Hreply.
  rewrite (slice_to_long _ _ Hlen).
  change (∅, 0%Z, 0%Z) with (∅ : gmap string NetworkStats.t, wrap64 0, wrap64 0).
  change (0%Z, 0%Z) with (wrap64 0, wrap64 0).
  rewrite fold_add_network, fold_add_blkio, fold_insert_map_to_list.
  eexists. split; [reflexivity|]. simpl. repeat split; reflexivity.
Qed.

(** X5: a sample keeps the per-interface counters of the reply as they
    are, and its two network totals are the sums of the received and of
    the transmitted bytes over all interfaces, modulo 2^64 (the sums
    themselves when they fit in 64 bits). *)
Theorem GetContainerStats_networks w containerID name stats :
  cli_ContainerStats w containerID = StatsDecoded stats →
  12 ≤ String.length containerID →
  ∃ sample,
    GetContainerStats w containerID name = Returned (Ok sample)
    ∧ ContainerStats.Networks sample = StatsResponse.Networks stats
    ∧ ContainerStats.NetworkRxBytes sample
      = wrap64 (sum_Z (NetworkStats.RxBytes <$> (map_to_list (StatsResponse.Networks stats)).*2))
    ∧ ContainerStats.NetworkTxBytes sample
      = wrap64 (sum_Z (NetworkStats.TxBytes <$> (map_to_list (StatsResponse.Networks stats)).*2))
    ∧ ((0 ≤ sum_Z (NetworkStats.RxBytes <$> (map_to_list (StatsResponse.Networks stats)).*2)
          < 2 ^ 64)%Z →
       ContainerStats.NetworkRxBytes sample
       = sum_Z (NetworkStats.RxBytes <$> (map_to_list (StatsResponse.Networks stats)).*2)).
Proof.
  intros Hreply Hlen.
  destruct (GetContainerStats_decoded w containerID name stats Hreply Hlen)
    as (sample & Hget & _ & Hnets & Hrx & Htx & _).
  exists sample. repeat split; try assumption.
  intros Hfit. rewrite Hrx. apply wrap64_small, Hfit.
Qed.

Lemma GetContainerStats_networks_witness :
  ∃ sample,
    GetContainerStats fleet "4f1c0a9b7e2d" "web" = Returned (Ok sample)
    ∧ ContainerStats.Networks sample !! "eth0"
      = Some {| NetworkStats.RxBytes := 1500; NetworkStats.TxBytes := 900 |}
    ∧ ContainerStats.NetworkRxBytes sample = 1500%Z
    ∧ ContainerStats.NetworkTxBytes sample = 900%Z.
Proof.
  destruct (GetContainerStats_networks fleet "4f1c0a9b7e2d" "web" sample_stats)
    as (sample & Hget & Hnets & Hrx & Htx & _).
  { reflexivity. }
  { vm_compute. lia. }
  exists sample. split; [exact Hget|]. rewrite Hnets, Hrx, Htx.
  split; [|split]; vm_compute; reflexivity.
Defined.

(** X6: the block-IO totals of a sample are the sums, modulo 2^64, of the
    values of the entries whose operation is "read" or "Read", and of
    those whose operation is "write" or "Write"; every other entry is
    left out of both. *)
Theorem GetContainerStats_blkio w containerID name stats :
  cli_ContainerStats w containerID = StatsDecoded stats →
  12 ≤ String.length containerID →
  ∃ sample,
    GetContainerStats w containerID name = Returned (Ok sample)
    ∧ ContainerStats.BlockRead sample
      = wrap64 (sum_Z (BlkioStatEntry.Value
                         <$> filter is_read (StatsResponse.IoServiceBytesRecursive stats)))
    ∧ ContainerStats.BlockWrite sample
      = wrap64 (sum_Z (BlkioStatEntry.Value
                         <$> filter is_write (StatsResponse.IoServiceBytesRecursive stats))).
Proof.
  intros Hreply Hlen.
  destruct (GetContainerStats_decoded w containerID name stats Hreply Hlen)
    as (sample & Hget & _ & _ & _ & _ & Hrd & Hwr).
  exists sample. repeat split; assumption.
Qed.

Lemma GetContainerStats_blkio_witness :
  ∃ sample,
    GetContainerStats fleet "4f1c0a9b7e2d" "web" = Returned (Ok sample)
    ∧ ContainerStats.BlockRead sample = 4096%Z
    ∧ ContainerStats.BlockWrite sample = 8192%Z.
Proof.
  destruct (GetContainerStats_blkio fleet "4f1c0a9b7e2d" "web" sample_stats)
    as (sample & Hget & Hrd & Hwr).
  { reflexivity. }
  { vm_compute. lia. }
  exists sample. split; [exact Hget|]. rewrite Hrd, Hwr.
  split; vm_compute; reflexivity.
Defined.

(** ** What every scrape is made of *)

(** Settles [described c m] and [typed c m] for a metric [m] given by its
    fields. *)
Ltac settle_metric :=
  split;
  [ split; [unfold Describe; rewrite !elem_of_cons; pick_metric | reflexivity]
  | split;
    [ intros Hvt;
      first [discriminate Hvt | unfold counter_descs; rewrite !elem_of_cons; pick_metric]
    | intros Hd; first [reflexivity | absurd_desc Hd] ] ].

Section Consistency.

Variable w : World.
Variable cfg : Config.t.

Let c : Collector := NewCollector w cfg.

Lemma scrape_Panicked :
  ListContainers w = Panicked → scrape c = Panicked.
Proof.
  intros Hlist. unfold scrape, Collect, bind.
  change (Now (client c) 0) with (Returned (time_Now w 0, 1, @nil Metric)).
  cbv beta iota.
  pose proof (runs_emit (buildInfo c) GaugeValue 1
                [config_Version (client c); config_GoVersion (client c)] 1 eq_refl)
    as Hbuild.
  unfold runs in Hbuild. rewrite Hbuild.
  unfold collectContainerMetrics, bind. simpl client. rewrite Hlist. reflexivity.
Qed.

(** A scrape that returns is the scrape of a listing, the empty one when
    the listing failed. *)
Lemma scrape_inv out :
  scrape c = Returned out →
  ∃ containers,
    out = listed_scrape w cfg containers
    ∧ (ListContainers w = Returned (Ok containers)
       ∨ containers = [] ∧ ∃ e, ListContainers w = Returned (Err e)).
Proof.
  intros Hout. unfold c in Hout.
  destruct (ListContainers w) as [[containers|e]|] eqn:Hlist.
  - exists containers. split; [|left; reflexivity].
    rewrite (scrape_listed w cfg containers Hlist) in Hout. injection Hout as <-.
    reflexivity.
  - exists []. split; [|right; split; [reflexivity|exists e; reflexivity]].
    rewrite (scrape_listing_failed w cfg e Hlist) in Hout. injection Hout as <-.
    reflexivity.
  - pose proof (scrape_Panicked Hlist) as Hpanic. unfold c in Hpanic.
    rewrite Hpanic in Hout. discriminate Hout.
Qed.

Lemma resource_metrics_settled cont stats m :
  m ∈ resource_metrics w cfg cont stats →
  (described c m ∧ typed c m)
  ∧ labelValues m !! 1 = Some (ContainerInfo.Name cont).
Proof.
  unfold resource_metrics. intros H.
  apply elem_of_app in H as [H|H]; [|apply elem_of_app in H as [H|H]].
  - repeat (apply elem_of_cons in H as [->|H]; [split; [settle_metric|reflexivity]|]).
    inversion H.
  - apply elem_of_concat_fmap in H as (entry & _ & H). unfold interface_metrics in H.
    repeat (apply elem_of_cons in H as [->|H]; [split; [settle_metric|reflexivity]|]).
    inversion H.
  - repeat (apply elem_of_cons in H as [->|H]; [split; [settle_metric|reflexivity]|]).
    inversion H.
Qed.

Lemma container_metrics_settled statsMap cont now m :
  m ∈ container_metrics w cfg statsMap cont now →
  (described c m ∧ typed c m)
  ∧ labelValues m !! 1 = Some (ContainerInfo.Name cont).
Proof.
  intros H. apply container_metrics_inv in H.
  destruct H as [->|[->|[->|[[_ ->]|[[_ ->]|[->|[->|[->|[->|(stats & _ & H)]]]]]]]]];
    try (split; [settle_metric|reflexivity]).
  eapply resource_metrics_settled, H.
Qed.

Lemma listed_scrape_settled containers m :
  m ∈ listed_scrape w cfg containers → described c m ∧ typed c m.
Proof.
  unfold listed_scrape. intros H.
  apply elem_of_cons in H as [->|H]; [settle_metric|].
  apply elem_of_app in H as [H|H]; [|apply elem_of_app in H as [H|H]].
  - apply elem_of_emitted in H as (before & cont & after & _ & H).
    eapply container_metrics_settled, H.
  - unfold engine_metrics in H. destruct (GetEngineInfo w) as [info|e]; [|inversion H].
    repeat (apply elem_of_cons in H as [->|H]; [settle_metric|]). inversion H.
  - apply elem_of_cons in H as [->|H]; [settle_metric|inversion H].
Qed.

Lemma string_app_inj_l (p a b : string) : p +:+ a = p +:+ b → a = b.
Proof.
  induction p as [|x p IH]; simpl; intros H; [exact H|].
  injection H as H. apply IH, H.
Qed.

End Consistency.

(** X7: every metric a scrape returns carries a descriptor that
    [Describe] announces, with exactly one label value per label name of
    that descriptor. *)
Theorem Collect_within_Describe w cfg out :
  scrape (NewCollector w cfg) = Returned out →
  Forall (described (NewCollector w cfg)) out.
Proof.
  intros Hout. apply scrape_inv in Hout as (containers & -> & _).
  apply Forall_forall. intros m Hm. eapply listed_scrape_settled, Hm.
Qed.

Lemma Collect_within_Describe_witness :
  ∃ out,
    scrape (NewCollector fleet ndocker) = Returned out
    ∧ Forall (described (NewCollector fleet ndocker)) out
    ∧ length out = 59.
Proof.
  exists (listed_scrape fleet ndocker fleet_snapshots).
  split; [exact fleet_scrape|]. split.
  - apply (Collect_within_Describe fleet ndocker), fleet_scrape.
  - vm_compute. reflexivity.
Defined.

(** X8: in every scrape the cumulative series (CPU seconds, network
    bytes received and transmitted, block-IO bytes read and written) are
    sent as counters and every other series as a gauge. *)
Theorem Collect_value_types w cfg out :
  scrape (NewCollector w cfg) = Returned out →
  Forall (typed (NewCollector w cfg)) out.
Proof.
  intros Hout. apply scrape_inv in Hout as (containers & -> & _).
  apply Forall_forall. intros m Hm. eapply listed_scrape_settled, Hm.
Qed.

Lemma Collect_value_types_witness :
  ∃ out,
    scrape (NewCollector fleet ndocker) = Returned out
    ∧ Forall (typed (NewCollector fleet ndocker)) out
    ∧ length (filter (λ m, valueType m = CounterValue) out) = 10.
Proof.
  exists (listed_scrape fleet ndocker fleet_snapshots).
  split; [exact fleet_scrape|]. split.
  - apply (Collect_value_types fleet ndocker), fleet_scrape.
  - vm_compute. reflexivity.
Defined.

(** X9: [Describe] announces twenty-three descriptors whose names are
    pairwise distinct, whatever the configured prefix. *)
Theorem Describe_names_distinct w cfg :
  length (Describe (NewCollector w cfg)) = 23
  ∧ NoDup (fqName <$> Describe (NewCollector w cfg)).
Proof.
  split; [reflexivity|].
  change (fqName <$> Describe (NewCollector w cfg))
    with ((λ suffix, Config.Prefix cfg +:+ suffix)
            <$> ["_container_info"; "_container_state"; "_container_uptime_seconds";
                 "_container_created_seconds"; "_container_started_seconds";
                 "_container_restart_count"; "_container_health_status";
                 "_container_exit_code"; "_container_oom_killed";
                 "_container_cpu_usage_percent"; "_container_cpu_usage_seconds_total";
                 "_container_memory_usage_bytes"; "_container_memory_limit_bytes";
                 "_container_memory_usage_percent";
                 "_container_network_rx_bytes_total";
                 "_container_network_tx_bytes_total";
                 "_container_blkio_read_bytes_total";
                 "_container_blkio_write_bytes_total"; "_engine_info";
                 "_containers_total"; "_images_total"; "_scrape_duration_seconds";
                 "_build_info"]).
  apply NoDup_fmap_2.
  - intros a b. apply string_app_inj_l.
  - apply (bool_decide_unpack _). vm_compute. exact I.
Qed.

(** X10: a scrape that returns starts with the build-info metric and ends
    with the scrape-duration metric, whose value is the time between the
    first clock reading and a later one; no metric in between carries
    either descriptor, so each of the two is sent exactly once. *)
Theorem Collect_frame w cfg out :
  scrape (NewCollector w cfg) = Returned out →
  ∃ middle k,
    out = mkMetric (buildInfo (NewCollector w cfg)) GaugeValue 1
            [config_Version w; config_GoVersion w]
          :: middle
          ++ [mkMetric (scrapeDuration (NewCollector w cfg)) GaugeValue
                (time.Seconds (time.Sub (time_Now w k) (time_Now w 0))) []]
    ∧ 1 ≤ k
    ∧ Forall (λ m, desc m ≠ buildInfo (NewCollector w cfg)
                   ∧ desc m ≠ scrapeDuration (NewCollector w cfg)) middle.
Proof.
  intros Hout. apply scrape_inv in Hout as (containers & -> & _).
  exists (container_series w cfg containers ++ engine_metrics w cfg),
         (1 + clock_reads containers).
  split; [unfold listed_scrape; rewrite <- app_assoc; reflexivity|].
  split; [lia|]. apply Forall_app. split; apply Forall_forall; intros m Hm.
  - apply elem_of_emitted in Hm as (before & cont & after & _ & Hm).
    apply container_metrics_for in Hm as [_ Hdesc].
    split; intros Heq; rewrite Heq in Hdesc; absurd_desc Hdesc.
  - unfold engine_metrics in Hm.
    destruct (GetEngineInfo w) as [info|e]; [|inversion Hm].
    repeat (apply elem_of_cons in Hm as [->|Hm]; [split; discriminate|]).
    inversion Hm.
Qed.

Lemma Collect_frame_witness :
  ∃ middle k,
    listed_scrape fleet ndocker fleet_snapshots
    = mkMetric (buildInfo (NewCollector fleet ndocker)) GaugeValue 1
        [config_Version fleet; config_GoVersion fleet]
      :: middle
      ++ [mkMetric (scrapeDuration (NewCollector fleet ndocker)) GaugeValue
            (time.Seconds (time.Sub (time_Now fleet k) (time_Now fleet 0))) []]
    ∧ 1 ≤ k
    ∧ Forall (λ m, desc m ≠ buildInfo (NewCollector fleet ndocker)
                   ∧ desc m ≠ scrapeDuration (NewCollector fleet ndocker)) middle.
Proof. exact (Collect_frame fleet ndocker _ fleet_scrape). Defined.

(** X11: when the listing goes through, every container-scoped metric
    of the scrape carries, as its first two label values, the identifier
    and the name of one of the snapshots listed, and that identifier has
    exactly twelve bytes: no series is sent for anything else. *)
Theorem container_metrics_belong_to_listing w cfg containers :
  ListContainers w = Returned (Ok containers) →
  ∃ out,
    scrape (NewCollector w cfg) = Returned out
    ∧ ∀ m, m ∈ out → desc m ∈ container_descs (NewCollector w cfg) →
           ∃ cont, cont ∈ containers
                   ∧ labelValues m !! 0 = Some (ContainerInfo.ID cont)
                   ∧ labelValues m !! 1 = Some (ContainerInfo.Name cont)
                   ∧ String.length (ContainerInfo.ID cont) = 12.
Proof.
  intros Hlist. exists (listed_scrape w cfg containers).
  split; [apply scrape_listed, Hlist|]. intros m Hm Hdesc.
  apply scrape_container_metric in Hm; [|exact Hdesc].
  apply elem_of_emitted in Hm as (before & cont & after & -> & Hm).
  assert (cont ∈ before ++ cont :: after) as Hcont
    by (rewrite elem_of_app, elem_of_cons; auto).
  exists cont. split; [exact Hcont|].
  split; [eapply container_metrics_for, Hm|].
  split; [eapply container_metrics_settled, Hm|].
  pose proof (ListContainers_ID_length _ _ Hlist) as Hlen.
  rewrite Forall_forall in Hlen. apply Hlen, Hcont.
Qed.

Lemma container_metrics_belong_to_listing_witness :
  ∃ out,
    scrape (NewCollector fleet ndocker) = Returned out
    ∧ ∀ m, m ∈ out → desc m ∈ container_descs (NewCollector fleet ndocker) →
           ∃ cont, cont ∈ fleet_snapshots
                   ∧ labelValues m !! 0 = Some (ContainerInfo.ID cont)
                   ∧ labelValues m !! 1 = Some (ContainerInfo.Name cont)
                   ∧ String.length (ContainerInfo.ID cont) = 12.
Proof.
  exact (container_metrics_belong_to_listing fleet ndocker fleet_snapshots fleet_lists).
Defined.

(** ** Degraded scrapes *)

(** X12: when the list call succeeds and every detail lookup fails (or
    nothing is listed), the listing is empty, not an error, and the scrape
    consists of build-info, the engine metrics and scrape-duration: no
    container-scoped metric, and only the two clock readings of [Collect]
    itself. *)
Theorem scrape_without_snapshots w cfg containers :
  cli_ContainerList w = Ok containers →
  Forall (λ cont, inspect_ok w cont = false) containers →
  ListContainers w = Returned (Ok [])
  ∧ scrape (NewCollector w cfg)
    = Returned (build_metric w cfg :: engine_metrics w cfg
                  ++ [duration_metric w cfg 1]).
Proof.
  intros Hlist Hfail.
  assert (ListContainers w = Returned (Ok [])) as Hnone.
  { unfold ListContainers. rewrite Hlist.
    rewrite ListContainers_loop_detail.
    - replace (omap (detail w) containers) with (@nil ContainerInfo.t); [reflexivity|].
      clear Hlist. induction Hfail as [|cont rest Hcont _ IH]; [reflexivity|].
      simpl. unfold detail at 1. unfold inspect_ok in Hcont.
      destruct (cli_ContainerInspect w (Summary.ID cont)) as [?|e] eqn:Hcall;
        [discriminate Hcont|].
      rewrite (InspectContainer_Err _ _ _ Hcall). exact IH.
    - eapply Forall_impl; [exact Hfail|]. intros cont Hcont.
      unfold long_id. unfold inspect_ok in Hcont.
      destruct (cli_ContainerInspect w (Summary.ID cont)); [discriminate Hcont|exact I]. }
  split; [exact Hnone|]. apply (scrape_listed w cfg [] Hnone).
Qed.

Lemma scrape_without_snapshots_witness :
  ListContainers all_gone = Returned (Ok [])
  ∧ ∃ out, scrape (NewCollector all_gone ndocker) = Returned out ∧ length out = 7.
Proof.
  destruct (scrape_without_snapshots all_gone ndocker fleet_listing eq_refl)
    as [Hnone Hout].
  { repeat constructor. }
  split; [exact Hnone|]. eexists. split; [exact Hout|reflexivity].
Defined.

(** X13: when the engine lookup fails while the listing goes through, the
    scrape is build-info, the container metrics and scrape-duration: the
    engine metrics alone are missing, and every listed container keeps its
    seven unconditional series. *)
Theorem scrape_without_engine w cfg containers e :
  ListContainers w = Returned (Ok containers) →
  cli_Info w = Err e →
  ∃ out,
    scrape (NewCollector w cfg) = Returned out
    ∧ out = build_metric w cfg :: container_series w cfg containers
            ++ [duration_metric w cfg (1 + clock_reads containers)]
    ∧ ∀ cont d, cont ∈ containers → d ∈ always_descs (NewCollector w cfg) →
                has_series out d cont.
Proof.
  intros Hlist Hinfo.
  assert (listed_scrape w cfg containers
          = build_metric w cfg :: container_series w cfg containers
            ++ [duration_metric w cfg (1 + clock_reads containers)]) as Hshape.
  { unfold listed_scrape, engine_metrics, GetEngineInfo. rewrite Hinfo. reflexivity. }
  exists (listed_scrape w cfg containers).
  split; [apply scrape_listed, Hlist|]. split; [exact Hshape|].
  intros cont d. apply always_series.
Qed.

Lemma scrape_without_engine_witness :
  ∃ out,
    scrape (NewCollector engine_down ndocker) = Returned out
    ∧ length out = 54
    ∧ has_series out (containerInfo (NewCollector engine_down ndocker)) db.
Proof.
  assert (ListContainers engine_down = Returned (Ok fleet_snapshots)) as Hlist
    by (vm_compute; reflexivity).
  destruct (scrape_without_engine engine_down ndocker fleet_snapshots TransportError
              Hlist eq_refl) as (out & Hout & Hshape & Hseries).
  exists out. split; [exact Hout|]. split.
  - rewrite Hshape. vm_compute. reflexivity.
  - apply Hseries.
    + unfold fleet_snapshots. rewrite !elem_of_cons. auto.
    + unfold always_descs. rewrite !elem_of_cons. auto.
Defined.



(** ** Samples and the channel *)

(** The map built from the channel holds, under an identifier, the last
    sample received with that identifier. *)
Lemma fold_insert_last (l : list ContainerStats.t)
    (m : gmap string ContainerStats.t) (k : string) :
  fold_left (λ acc s, <[ContainerStats.ID s := s]> acc) l m !! k
  = match last (filter (λ s, ContainerStats.ID s = k) l) with
    | Some s => Some s
    | None => m !! k
    end.
Proof.
  revert m. induction l as [|s0 l IH]; intros m; [reflexivity|].
  cbn [fold_left]. rewrite IH, filter_cons. case_decide as Hk.
  - destruct (filter _ l) as [|s1 rest] eqn:Hrest.
    + simpl. rewrite <- Hk. apply lookup_insert_eq.
    + rewrite last_cons_cons. destruct (last (s1 :: rest)) eqn:Hlast; [reflexivity|].
      apply last_None in Hlast. discriminate Hlast.
  - destruct (last (filter _ l)); [reflexivity|].
    apply lookup_insert_ne. exact Hk.
Qed.

(** X15: whatever arrives on the channel, the map of samples holds under
    each identifier the last sample received with it (an earlier sample
    with the same identifier is overwritten), and nothing under an
    identifier no received sample has. *)
Theorem collect_statsMap_last_wins (received : list ContainerStats.t) (k : string) :
  collect_statsMap received !! k
  = last (filter (λ s, ContainerStats.ID s = k) received).
Proof.
  unfold collect_statsMap. rewrite fold_insert_last, lookup_empty.
  destruct (last _); reflexivity.
Qed.

Lemma collect_statsMap_Permutation (l1 l2 : list ContainerStats.t) :
  NoDup (ContainerStats.ID <$> l2) → l1 ≡ₚ l2 →
  collect_statsMap l1 = collect_statsMap l2.
Proof.
  intros Hnd2 Hperm.
  assert (NoDup (ContainerStats.ID <$> l1)) as Hnd1 by (rewrite Hperm; exact Hnd2).
  apply map_eq. intros k. unfold collect_statsMap.
  destruct (fold_insert_lookup l1 ∅ k Hnd1) as [Hin1 Hout1].
  destruct (fold_insert_lookup l2 ∅ k Hnd2) as [Hin2 Hout2].
  destruct (decide (k ∈ ContainerStats.ID <$> l2)) as [Hk|Hk].
  - apply list_elem_of_fmap in Hk as (s & -> & Hs).
    rewrite (Hin2 s Hs eq_refl). apply Hin1; [rewrite Hperm; exact Hs|reflexivity].
  - rewrite (Hout2 Hk). apply Hout1. rewrite Hperm. exact Hk.
Qed.

Lemma ListContainers_with_arrival w order :
  ListContainers (with_arrival w order) = ListContainers w.
Proof.
  unfold ListContainers. change (cli_ContainerList (with_arrival w order))
    with (cli_ContainerList w).
  destruct (cli_ContainerList w) as [containers|e]; [|reflexivity].
  assert (∀ result, ListContainers_loop (with_arrival w order) containers result
                    = ListContainers_loop w containers result) as Hloop.
  { induction containers as [|cont rest IH]; intros result; [reflexivity|].
    cbn [ListContainers_loop].
    change (InspectContainer (with_arrival w order) (Summary.ID cont))
      with (InspectContainer w (Summary.ID cont)).
    destruct (InspectContainer w (Summary.ID cont)) as [[info|e]|];
      [apply IH|apply IH|reflexivity]. }
  rewrite Hloop. reflexivity.
Qed.

Lemma emitted_with_arrival w order cfg statsMap containers k :
  emitted (with_arrival w order) cfg statsMap containers k
  = emitted w cfg statsMap containers k.
Proof.
  revert k. induction containers as [|cont rest IH]; intros k; [reflexivity|].
  cbn [emitted]. rewrite IH. reflexivity.
Qed.

(** X16: with distinct identifiers the metrics of a scrape do not depend
    on the order in which the goroutines deliver their samples: any two
    orders that deliver every posted sample once give the same scrape. *)
Theorem scrape_independent_of_arrival w cfg containers order :
  ListContainers w = Returned (Ok containers) →
  NoDup (ContainerInfo.ID <$> containers) →
  channel_delivers w →
  (∀ posted, order posted ≡ₚ posted) →
  scrape (NewCollector (with_arrival w order) cfg) = scrape (NewCollector w cfg).
Proof.
  intros Hlist Hnd Hdel Horder.
  assert (ListContainers (with_arrival w order) = Returned (Ok containers)) as Hlist'
    by (rewrite ListContainers_with_arrival; exact Hlist).
  rewrite (scrape_listed _ cfg _ Hlist'), (scrape_listed w cfg _ Hlist).
  do 2 f_equal.
  assert (scrape_statsMap (with_arrival w order) containers
          = scrape_statsMap w containers) as Hmap.
  { unfold scrape_statsMap.
    change (arrival (with_arrival w order)) with order.
    change (fetched (with_arrival w order)) with (fetched w).
    pose proof (ListContainers_ID_length _ _ Hlist) as Hlen.
    pose proof (sublist_NoDup _ _ Hnd (fetched_ids_sublist w _ Hlen)) as Hposted.
    transitivity (collect_statsMap (omap (fetched w) containers)).
    - apply collect_statsMap_Permutation; [exact Hposted|apply Horder].
    - symmetry. apply collect_statsMap_Permutation; [exact Hposted|apply Hdel]. }
  unfold container_series. rewrite Hmap, emitted_with_arrival. reflexivity.
Qed.

Lemma scrape_independent_of_arrival_witness :
  scrape (NewCollector (with_arrival fleet (λ posted, posted)) ndocker)
  = scrape (NewCollector fleet ndocker).
Proof.
  apply (scrape_independent_of_arrival fleet ndocker fleet_snapshots).
  - exact fleet_lists.
  - exact fleet_ids_distinct.
  - exact fleet_channel_delivers.
  - intros posted. reflexivity.
Defined.

(** X17: with distinct identifiers, a listed container that is not
    running gets no CPU, memory, network or block-IO metric, whatever the
    daemon would answer to a stats request for it: no fetch is started
    for it. *)
Theorem no_resources_unless_running w cfg containers cont :
  ListContainers w = Returned (Ok containers) →
  NoDup (ContainerInfo.ID <$> containers) →
  channel_delivers w →
  cont ∈ containers →
  ContainerInfo.Running cont = false →
  fetched w cont = None
  ∧ ∃ out,
      scrape (NewCollector w cfg) = Returned out
      ∧ ∀ m, m ∈ out → desc m ∈ resource_descs (NewCollector w cfg) →
             ¬ for_container cont m.
Proof.
  intros Hlist Hnd Hdel Hcont Hstopped.
  assert (fetched w cont = None) as Hnone by (unfold fetched; rewrite Hstopped; reflexivity).
  split; [exact Hnone|]. exists (listed_scrape w cfg containers).
  split; [apply scrape_listed, Hlist|]. intros m Hm Hdesc Hfor.
  destruct (resource_series_source w cfg _ _ _ Hlist Hnd Hdel Hcont Hm Hdesc Hfor)
    as (stats & Hf & _).
  congruence.
Qed.

(** [job] is not running, and the daemon of [fleet] would answer a stats
    request for it. *)
Lemma no_resources_unless_running_witness :
  cli_ContainerStats fleet (ContainerInfo.ID job) = StatsDecoded sample_stats
  ∧ ∃ out,
      scrape (NewCollector fleet ndocker) = Returned out
      ∧ ∀ m, m ∈ out → desc m ∈ resource_descs (NewCollector fleet ndocker) →
             ¬ for_container job m.
Proof.
  split; [reflexivity|].
  destruct (no_resources_unless_running fleet ndocker fleet_snapshots job
              fleet_lists fleet_ids_distinct fleet_channel_delivers) as [_ Hout].
  - unfold fleet_snapshots. rewrite !elem_of_cons. auto.
  - reflexivity.
  - exact Hout.
Defined.

Lemma elem_of_concat_fmap_2 {A B} (f : A → list B) (l : list A) (x : A) (y : B) :
  x ∈ l → y ∈ f x → y ∈ concat (f <$> l).
Proof.
  induction l as [|a l IH]; intros Hx Hy; [inversion Hx|].
  simpl. apply elem_of_app. apply elem_of_cons in Hx as [->|Hx]; [left|right]; auto.
Qed.

(** X18: with distinct identifiers, for a running listed container whose
    stats reply decodes, every interface of the reply shows up in the
    scrape as one received-bytes and one transmitted-bytes counter,
    labelled with the container's identifier and name and the interface
    name, with the byte counts of the reply as values. *)
Theorem interface_series w cfg containers cont stats iface netStats :
  ListContainers w = Returned (Ok containers) →
  NoDup (ContainerInfo.ID <$> containers) →
  channel_delivers w →
  cont ∈ containers →
  ContainerInfo.Running cont = true →
  cli_ContainerStats w (ContainerInfo.ID cont) = StatsDecoded stats →
  StatsResponse.Networks stats !! iface = Some netStats →
  ∃ out,
    scrape (NewCollector w cfg) = Returned out
    ∧ mkMetric (containerNetworkRxBytes (NewCollector w cfg)) CounterValue
        (float64_of_Z (NetworkStats.RxBytes netStats))
        [ContainerInfo.ID cont; ContainerInfo.Name cont; iface] ∈ out
    ∧ mkMetric (containerNetworkTxBytes (NewCollector w cfg)) CounterValue
        (float64_of_Z (NetworkStats.TxBytes netStats))
        [ContainerInfo.ID cont; ContainerInfo.Name cont; iface] ∈ out.
Proof.
  intros Hlist Hnd Hdel Hcont Hrun Hreply Hiface.
  pose proof (ListContainers_ID_length _ _ Hlist) as Hlen.
  rewrite Forall_forall in Hlen. specialize (Hlen cont Hcont).
  destruct (GetContainerStats_decoded w (ContainerInfo.ID cont) (ContainerInfo.Name cont)
              stats Hreply) as (sample & Hget & _ & Hnets & _); [lia|].
  assert (fetched w cont = Some sample) as Hf
    by (unfold fetched; rewrite Hrun, Hget; reflexivity).
  pose proof (scrape_statsMap_fetched w _ _ Hlist Hnd Hdel Hcont) as Hmap.
  rewrite Hf in Hmap.
  exists (listed_scrape w cfg containers). split; [apply scrape_listed, Hlist|].
  apply list_elem_of_split in Hcont as (before & after & ->).
  assert (∀ m, m ∈ interface_metrics w cfg cont (iface, netStats) →
               m ∈ listed_scrape w cfg (before ++ cont :: after)) as Hin.
  { intros m Hm. apply turn_in_listed_scrape. unfold container_metrics.
    rewrite Hmap, !elem_of_app. do 4 right.
    unfold resource_metrics. rewrite !elem_of_app. right. left.
    eapply elem_of_concat_fmap_2; [|exact Hm].
    rewrite Hnets. apply elem_of_map_to_list, Hiface. }
  split; apply Hin; unfold interface_metrics; rewrite !elem_of_cons; auto.
Qed.

Lemma interface_series_witness :
  ∃ out,
    scrape (NewCollector fleet ndocker) = Returned out
    ∧ mkMetric (containerNetworkRxBytes (NewCollector fleet ndocker)) CounterValue
        1500 ["4f1c0a9b7e2d"; "web"; "eth0"] ∈ out
    ∧ mkMetric (containerNetworkTxBytes (NewCollector fleet ndocker)) CounterValue
        900 ["4f1c0a9b7e2d"; "web"; "eth0"] ∈ out.
Proof.
  destruct (interface_series fleet ndocker fleet_snapshots web sample_stats "eth0"
              {| NetworkStats.RxBytes := 1500; NetworkStats.TxBytes := 900 |}
              fleet_lists fleet_ids_distinct fleet_channel_delivers)
    as (out & Hout & Hrx & Htx).
  - unfold fleet_snapshots. rewrite !elem_of_cons. auto.
  - reflexivity.
  - reflexivity.
  - vm_compute. reflexivity.
  - exists out. split; [exact Hout|]. split.
    + vm_compute in Hrx. vm_compute. exact Hrx.
    + vm_compute in Htx. vm_compute. exact Htx.
Defined.

(** ** Snapshots *)

(** The snapshot [InspectContainer] builds from a lookup reply. *)
Lemma InspectContainer_Returned w containerID inspect info :
  cli_ContainerInspect w containerID = Ok inspect →
  InspectContainer w containerID = Returned (Ok info) →
  12 ≤ String.length (InspectResponse.ID inspect)
  ∧ ContainerInfo.ID info = String.substring 0 12 (InspectResponse.ID inspect)
  ∧ ContainerInfo.Name info = strings_TrimPrefix (InspectResponse.Name inspect) "/"
  ∧ ContainerInfo.Running info = ContainerState.Running (InspectResponse.State inspect)
  ∧ ContainerInfo.Started info
    = parsed_or_zero w (ContainerState.StartedAt (InspectResponse.State inspect))
  ∧ ContainerInfo.Health info
    = default "none" (ContainerState.Health (InspectResponse.State inspect)).
Proof.
  unfold InspectContainer, slice_to. intros ->.
  case_decide as Hlen; [|discriminate]. intros [= <-]. simpl.
  split; [exact Hlen|]. repeat split.
Qed.

Lemma omap_length_le {A B} (f : A → option B) (l : list A) :
  length (omap f l) ≤ length l.
Proof.
  induction l as [|x l IH]; csimpl; [lia|]. destruct (f x); csimpl; lia.
Qed.

Lemma ListContainers_loop_Returned w containers result out :
  ListContainers_loop w containers result = Returned out →
  out = result ++ omap (detail w) containers.
Proof.
  revert result. induction containers as [|cont rest IH]; intros result; simpl.
  { intros [= <-]. rewrite app_nil_r. reflexivity. }
  unfold detail at 1.
  destruct (InspectContainer w (Summary.ID cont)) as [[info|e]|]; [| |discriminate].
  - intros Hloop. rewrite (IH _ Hloop), <- app_assoc. reflexivity.
  - apply IH.
Qed.

(** X19: every snapshot [ListContainers] returns was built from the
    successful lookup of a listed container, its identifier being exactly
    the first twelve bytes of the identifier in the lookup reply; there
    are never more snapshots than listed containers. *)
Theorem ListContainers_snapshots_from_lookups w listed result :
  cli_ContainerList w = Ok listed →
  ListContainers w = Returned (Ok result) →
  length result ≤ length listed
  ∧ Forall (λ info,
              ∃ cont inspect,
                cont ∈ listed
                ∧ cli_ContainerInspect w (Summary.ID cont) = Ok inspect
                ∧ ContainerInfo.ID info
                  = String.substring 0 12 (InspectResponse.ID inspect)
                ∧ String.length (ContainerInfo.ID info) = 12) result.
Proof.
  intros Hcall Hlist. unfold ListContainers in Hlist. rewrite Hcall in Hlist.
  destruct (ListContainers_loop w listed []) as [out|] eqn:Hloop; [|discriminate].
  injection Hlist as <-. apply ListContainers_loop_Returned in Hloop as ->.
  simpl. split; [apply omap_length_le|].
  apply Forall_forall. intros info Hinfo.
  apply list_elem_of_omap in Hinfo as (cont & Hcont & Hdetail).
  unfold detail in Hdetail.
  destruct (InspectContainer w (Summary.ID cont)) as [[info'|e]|] eqn:Hinspect;
    try discriminate.
  injection Hdetail as ->.
  destruct (cli_ContainerInspect w (Summary.ID cont)) as [inspect|e] eqn:Hlookup.
  - exists cont, inspect.
    destruct (InspectContainer_Returned _ _ _ _ Hlookup Hinspect) as (_ & Hid & _).
    repeat split; try assumption. eapply InspectContainer_ID_length, Hinspect.
  - rewrite (InspectContainer_Err _ _ _ Hlookup) in Hinspect. discriminate Hinspect.
Qed.

Lemma ListContainers_snapshots_from_lookups_witness :
  length fleet_snapshots ≤ length fleet_listing
  ∧ Forall (λ info,
              ∃ cont inspect,
                cont ∈ fleet_listing
                ∧ cli_ContainerInspect fleet (Summary.ID cont) = Ok inspect
                ∧ ContainerInfo.ID info
                  = String.substring 0 12 (InspectResponse.ID inspect)
                ∧ String.length (ContainerInfo.ID info) = 12) fleet_snapshots.
Proof.
  exact (ListContainers_snapshots_from_lookups fleet fleet_listing fleet_snapshots
           eq_refl fleet_lists).
Defined.

(** X20: the name of a snapshot is the runtime's name of the container
    with one leading slash taken off: putting the slash back gives the
    runtime's name when that starts with a slash, and the two names are
    equal otherwise. *)
Theorem InspectContainer_Name w containerID inspect info :
  cli_ContainerInspect w containerID = Ok inspect →
  InspectContainer w containerID = Returned (Ok info) →
  InspectResponse.Name inspect
  = (if String.prefix "/" (InspectResponse.Name inspect)
     then "/" +:+ ContainerInfo.Name info
     else ContainerInfo.Name info).
Proof.
  intros Hlookup Hinspect.
  destruct (InspectContainer_Returned _ _ _ _ Hlookup Hinspect) as (_ & _ & -> & _).
  destruct (String.prefix "/" (InspectResponse.Name inspect)) eqn:Hpre.
  - symmetry. apply TrimPrefix_slash, Hpre.
  - symmetry. apply TrimPrefix_no_slash, Hpre.
Qed.

Lemma InspectContainer_Name_witness :
  InspectContainer fleet id_web = Returned (Ok web)
  ∧ "/web" = "/" +:+ ContainerInfo.Name web.
Proof.
  assert (InspectContainer fleet id_web = Returned (Ok web)) as Hinspect
    by (vm_compute; reflexivity).
  split; [exact Hinspect|].
  exact (InspectContainer_Name fleet id_web _ web eq_refl Hinspect).
Defined.



(** ** The fan-out and the engine *)

(** X22: after a listing that went through, the fan-out never panics and
    posts at most one sample per running container; every posted sample
    was fetched for a running listed container and carries that
    container's identifier and name. *)
Theorem fetch_running_posts w containers :
  ListContainers w = Returned (Ok containers) →
  ∃ posted,
    fetch_running w containers = Returned posted
    ∧ length posted
      ≤ length (filter (λ cont, ContainerInfo.Running cont = true) containers)
    ∧ Forall (λ stats,
                ∃ cont, cont ∈ containers
                        ∧ ContainerInfo.Running cont = true
                        ∧ ContainerStats.ID stats = ContainerInfo.ID cont
                        ∧ ContainerStats.Name stats = ContainerInfo.Name cont) posted.
Proof.
  intros Hlist. pose proof (ListContainers_ID_length _ _ Hlist) as Hlen.
  exists (omap (fetched w) containers).
  split; [apply fetch_running_fetched, Hlen|]. split.
  - clear Hlist Hlen. induction containers as [|cont rest IH]; [reflexivity|].
    rewrite filter_cons. csimpl. unfold fetched at 1.
    destruct (ContainerInfo.Running cont).
    + rewrite decide_True by reflexivity.
      destruct (GetContainerStats w _ _) as [[stats|e]|]; csimpl; lia.
    + rewrite decide_False by discriminate. exact IH.
  - apply Forall_forall. intros stats Hstats.
    apply list_elem_of_omap in Hstats as (cont & Hcont & Hf).
    rewrite Forall_forall in Hlen. specialize (Hlen cont Hcont).
    exists cont. split; [exact Hcont|]. unfold fetched in Hf.
    destruct (ContainerInfo.Running cont); [|discriminate Hf].
    split; [reflexivity|].
    destruct (GetContainerStats w _ _) as [[stats'|e]|] eqn:Hget; try discriminate Hf.
    injection Hf as ->.
    eapply (GetContainerStats_short_id w _ _ Hlen), Hget.
Qed.

Lemma fetch_running_posts_witness :
  ∃ posted,
    fetch_running fleet fleet_snapshots = Returned posted
    ∧ length posted
      ≤ length (filter (λ cont, ContainerInfo.Running cont = true) fleet_snapshots)
    ∧ Forall (λ stats,
                ∃ cont, cont ∈ fleet_snapshots
                        ∧ ContainerInfo.Running cont = true
                        ∧ ContainerStats.ID stats = ContainerInfo.ID cont
                        ∧ ContainerStats.Name stats = ContainerInfo.Name cont) posted.
Proof. exact (fetch_running_posts fleet fleet_snapshots fleet_lists). Defined.

(** X23: when the engine lookup succeeds, a scrape that returns ends with
    the engine-info metric labelled with the daemon's version, operating
    system, architecture and kernel, the three container counts labelled
    running, paused and stopped, the image count, and scrape-duration, in
    this order and with the daemon's numbers as values. *)
Theorem engine_metrics_of_daemon w cfg info out :
  cli_Info w = Ok info →
  scrape (NewCollector w cfg) = Returned out →
  ∃ front k,
    out = front
          ++ [ mkMetric (engineInfo (NewCollector w cfg)) GaugeValue 1
                 [SystemInfo.ServerVersion info; SystemInfo.OperatingSystem info;
                  SystemInfo.Architecture info; SystemInfo.KernelVersion info];
               mkMetric (containersTotal (NewCollector w cfg)) GaugeValue
                 (float64_of_Z (SystemInfo.ContainersRunning info)) ["running"];
               mkMetric (containersTotal (NewCollector w cfg)) GaugeValue
                 (float64_of_Z (SystemInfo.ContainersPaused info)) ["paused"];
               mkMetric (containersTotal (NewCollector w cfg)) GaugeValue
                 (float64_of_Z (SystemInfo.ContainersStopped info)) ["stopped"];
               mkMetric (imagesTotal (NewCollector w cfg)) GaugeValue
                 (float64_of_Z (SystemInfo.Images info)) [];
               duration_metric w cfg k ].
Proof.
  intros Hinfo Hout. apply scrape_inv in Hout as (containers & -> & _).
  exists (build_metric w cfg :: container_series w cfg containers),
         (1 + clock_reads containers).
  unfold listed_scrape, engine_metrics, GetEngineInfo. rewrite Hinfo.
  rewrite app_comm_cons. reflexivity.
Qed.

Lemma engine_metrics_of_daemon_witness :
  ∃ front k,
    build_metric outage ndocker :: engine_metrics outage ndocker
      ++ [duration_metric outage ndocker 1]
    = front
      ++ [ mkMetric (engineInfo (NewCollector outage ndocker)) GaugeValue 1
             ["27.3.1"; "Ubuntu 24.04"; "x86_64"; "6.8.0"];
           mkMetric (containersTotal (NewCollector outage ndocker)) GaugeValue
             (float64_of_Z 3) ["running"];
           mkMetric (containersTotal (NewCollector outage ndocker)) GaugeValue
             (float64_of_Z 0) ["paused"];
           mkMetric (containersTotal (NewCollector outage ndocker)) GaugeValue
             (float64_of_Z 1) ["stopped"];
           mkMetric (imagesTotal (NewCollector outage ndocker)) GaugeValue
             (float64_of_Z 12) [];
           duration_metric outage ndocker k ].
Proof.
  apply (engine_metrics_of_daemon outage ndocker info_sample); [reflexivity|].
  apply (scrape_listing_failed outage ndocker TransportError). reflexivity.
Defined.
